(** * manage.py of the donkeycar Jetson Nano vehicle: a shallow embedding

    The development follows [manage.py]:
    - [Py]      the Python values and primitive operations the script uses;
    - [Manage]  [pilot_condition], [drive_mode], [get_model], the assembly of
                the vehicle in [drive], the record arithmetic of [train] and
                the command-line dispatch of [__main__];
    - [Vehicle] the scheduler, bus and lifecycle that [drive] hands its parts
                to ([donkeycar.vehicle.Vehicle] is imported, its code is not
                part of [manage.py]).
 *)

From Stdlib Require Import ZArith Bool List String Lia.
From Stdlib Require Import SpecFloat.
From stdpp Require Import base strings gmap list.

#[local] Set Warnings "-register-all".

Open Scope string_scope.
Open Scope Z_scope.

(* ===================================================================== *)
(** ** Python values and primitives *)
(* ===================================================================== *)

Module Py.

(** The value kinds that travel through [manage.py]: [None], booleans,
    integers, IEEE-754 binary64 floats, strings, opaque buffers (camera
    frames) and tuples. *)
Inductive value : Type :=
| VNone
| VBool (b : bool)
| VInt (z : Z)
| VFloat (f : spec_float)
| VStr (s : string)
| VBuf (id : N)
| VTuple (items : list value).

(** Exceptions a run of the script can raise. *)
Inductive exn : Type :=
| ValueError (msg : string)
| TypeError
| OverflowError
| ZeroDivisionError
| AssertionError
| RegistrationError.

Inductive result (A : Type) : Type :=
| Ok (a : A)
| Raise (e : exn).
Arguments Ok {A} a.
Arguments Raise {A} e.

Definition bind {A B} (r : result A) (k : A -> result B) : result B :=
  match r with
  | Ok a => k a
  | Raise e => Raise e
  end.

Definition returns {A} (r : result A) : Prop := exists a, r = Ok a.

(** [v == 'lit'] for a string literal: only a [str] with the same
    characters compares equal. *)
Definition eq_str (v : value) (lit : string) : bool :=
  match v with
  | VStr s => String.eqb s lit
  | _ => false
  end.

(** Truth value testing ([if v:]). *)
Definition truthy (v : value) : bool :=
  match v with
  | VNone => false
  | VBool b => b
  | VInt z => negb (z =? 0)
  | VFloat (S754_zero _) => false
  | VFloat _ => true
  | VStr s => negb (String.eqb s "")
  | VBuf _ => true
  | VTuple items => negb (Nat.eqb (List.length items) 0)
  end.

(** binary64 *)
Definition prec : Z := 53.
Definition emax : Z := 1024.

(** [float(n)] for an [int]: the nearest binary64, ties to even;
    [OverflowError] when it is out of range. *)
Definition float_of_int (n : Z) : result spec_float :=
  match binary_normalize prec emax n 0 false with
  | S754_infinity _ => Raise OverflowError
  | f => Ok f
  end.

(** [n * x] for [n : int], [x : float]. *)
Definition mul_int_float (n : Z) (x : spec_float) : result spec_float :=
  bind (float_of_int n) (fun fn => Ok (SFmul prec emax fn x)).

(** [int(x)] for a float: truncation towards zero. *)
Definition int_of_float (x : spec_float) : result Z :=
  match x with
  | S754_zero _ => Ok 0
  | S754_finite s m e =>
      let mag := if 0 <=? e then Z.pos m * 2 ^ e
                 else Z.pos m / 2 ^ (- e) in
      Ok (if s then - mag else mag)
  | S754_infinity _ => Raise OverflowError
  | S754_nan => Raise (ValueError "cannot convert float NaN to integer")
  end.

(** [a // b] on [int]. *)
Definition floordiv (a b : Z) : result Z :=
  if b =? 0 then Raise ZeroDivisionError else Ok (a / b).

(** A function object: its parameter names and its body on the
    positional arguments.  Calling it with another number of arguments
    raises [TypeError]. *)
Record pyfun : Type := {
  fname : string;
  params : list string;
  body : list value -> result value
}.

Definition call (f : pyfun) (args : list value) : result value :=
  if Nat.eqb (List.length args) (List.length (params f))
  then body f args
  else Raise TypeError.

(** The number of values a returned object stands for: the items of a
    tuple, one otherwise. *)
Definition ret_arity (v : value) : nat :=
  match v with
  | VTuple items => List.length items
  | _ => 1%nat
  end.

Definition ret_values (v : value) : list value :=
  match v with
  | VTuple items => items
  | _ => [v]
  end.

End Py.

Import Py.

Notation "'let*' x ':=' r 'in' k" := (bind r (fun x => k))
  (at level 10, x name, r at level 100, k at level 200).

(* ===================================================================== *)
(** ** manage.py *)
(* ===================================================================== *)

Module Manage.

(** The attributes of [cfg] that the script reads.  [dk.load_config()]
    is outside [manage.py]; the values are parameters of the model. *)
Record config : Type := {
  JOYSTICK_MAX_THROTTLE : value;
  JOYSTICK_STEERING_SCALE : value;
  AUTO_RECORD_ON_THROTTLE : value;
  STEERING_CHANNEL : value;
  STEERING_LEFT_PWM : value;
  STEERING_RIGHT_PWM : value;
  THROTTLE_CHANNEL : value;
  THROTTLE_FORWARD_PWM : value;
  THROTTLE_STOPPED_PWM : value;
  THROTTLE_REVERSE_PWM : value;
  TUB_PATH : value;
  DATA_PATH : value;
  DRIVE_LOOP_HZ : value;
  MAX_LOOPS : option nat;
  BATCH_SIZE : Z;
  TRAIN_TEST_SPLIT : spec_float
}.

(** *** The two closures of [drive] *)

(** [def pilot_condition(mode)] *)
Definition pilot_condition (mode : value) : value :=
  if eq_str mode "user" then VBool false else VBool true.

(** [def drive_mode(mode, user_angle, user_throttle, pilot_angle,
    pilot_throttle)] *)
Definition drive_mode (mode user_angle user_throttle
                       pilot_angle pilot_throttle : value) : value * value :=
  if eq_str mode "user" then (user_angle, user_throttle)
  else if eq_str mode "local_angle" then (pilot_angle, user_throttle)
  else (pilot_angle, pilot_throttle).

(** The same two functions as function objects, as [Lambda] receives
    them. *)
Definition pilot_condition_fn : pyfun := {|
  fname := "pilot_condition";
  params := ["mode"];
  body := fun args =>
    match args with
    | [mode] => Ok (pilot_condition mode)
    | _ => Raise TypeError
    end
|}.

Definition drive_mode_fn : pyfun := {|
  fname := "drive_mode";
  params := ["mode"; "user_angle"; "user_throttle";
             "pilot_angle"; "pilot_throttle"];
  body := fun args =>
    match args with
    | [mode; user_angle; user_throttle; pilot_angle; pilot_throttle] =>
        let '(a, t) := drive_mode mode user_angle user_throttle
                                  pilot_angle pilot_throttle in
        Ok (VTuple [a; t])
    | _ => Raise TypeError
    end
|}.

(** *** [get_model] *)

Inductive keras_model : Type :=
| default_linear
| linear_dropout
| linear_cropped_dropout.

Inductive pilot : Type :=
| KerasLinear (model : keras_model)
| KerasRNN_LSTM.

Definition get_model (model_type : value) : result pilot :=
  if eq_str model_type "linear" then Ok (KerasLinear default_linear)
  else if eq_str model_type "linear-dropout" then Ok (KerasLinear linear_dropout)
  else if eq_str model_type "linear-cropped-dropout"
       then Ok (KerasLinear linear_cropped_dropout)
  else if eq_str model_type "rnn" then Ok KerasRNN_LSTM
  else Raise (ValueError "Unknown model type").

(** *** The parts [drive] constructs *)

Inductive part : Type :=
| Timestamp
| RealSenseCamera
| PS4JoystickController (throttle_scale steering_scale
                         auto_record_on_throttle : value)
| LocalWebController (use_chaos : value)
| Lambda (f : pyfun)
| Pilot (kl : pilot) (loaded : option value)
| PWMSteering (channel left_pulse right_pulse : value)
| PWMThrottle (channel max_pulse zero_pulse min_pulse : value)
| TubWriter (path : value) (inputs types : list string).

(** Modelled from the spec: the Unit Descriptor (§3) that one
    [V.add(part, inputs=..., outputs=..., threaded=..., run_condition=...)]
    registers; [Vehicle.add] is not in [manage.py], and a keyword the call
    omits is the empty list, [False] and [None]. *)
Record entry : Type := {
  e_part : part;
  e_inputs : list string;
  e_outputs : list string;
  e_threaded : bool;
  e_run_condition : option string
}.

Definition vehicle : Type := list entry.

Definition V_add (V : vehicle) (p : part) (inputs outputs : list string)
           (threaded : bool) (run_condition : option string) : vehicle :=
  (V ++ [ {| e_part := p; e_inputs := inputs; e_outputs := outputs;
             e_threaded := threaded;
             e_run_condition := run_condition |} ])%list.

(** The input controller chosen by [if use_joystick:]. *)
Definition controller (cfg : config) (use_joystick use_chaos : value) : part :=
  if truthy use_joystick
  then PS4JoystickController (JOYSTICK_MAX_THROTTLE cfg)
                             (JOYSTICK_STEERING_SCALE cfg)
                             (AUTO_RECORD_ON_THROTTLE cfg)
  else LocalWebController use_chaos.

Definition tub_inputs : list string :=
  ["cam/image_array"; "user/angle"; "user/throttle"; "user/mode"; "timestamp"].

Definition tub_types : list string :=
  ["image_array"; "float"; "float"; "str"; "str"].

(** What [drive] has built when it reaches [V.start]: the registered
    parts and the two arguments of [V.start]. *)
Record assembled : Type := {
  a_vehicle : vehicle;
  a_rate_hz : value;
  a_max_loop_count : option nat
}.

(** The body of [drive] up to the call of [V.start]. *)
Definition drive_assemble (cfg : config)
           (model_path model_type use_joystick use_chaos : value)
  : result assembled :=
  let V : vehicle := [] in
  let V := V_add V Timestamp [] ["timestamp"] false None in
  let V := V_add V RealSenseCamera [] ["cam/image_array"] true None in
  let ctr := controller cfg use_joystick use_chaos in
  let V := V_add V ctr ["cam/image_array"]
                 ["user/angle"; "user/throttle"; "user/mode"; "recording"]
                 true None in
  let V := V_add V (Lambda pilot_condition_fn)
                 ["user/mode"] ["run_pilot"] false None in
  let* kl := get_model model_type in
  let loaded := if truthy model_path then Some model_path else None in
  let V := V_add V (Pilot kl loaded) ["cam/image_array"]
                 ["pilot/angle"; "pilot/throttle"] false (Some "run_pilot") in
  let V := V_add V (Lambda drive_mode_fn)
                 ["user/mode"; "user/angle"; "user/throttle";
                  "pilot/angle"; "pilot/throttle"]
                 ["angle"; "throttle"] false None in
  let steering := PWMSteering (STEERING_CHANNEL cfg)
                              (STEERING_LEFT_PWM cfg) (STEERING_RIGHT_PWM cfg) in
  let throttle := PWMThrottle (THROTTLE_CHANNEL cfg)
                              (THROTTLE_FORWARD_PWM cfg)
                              (THROTTLE_STOPPED_PWM cfg)
                              (THROTTLE_REVERSE_PWM cfg) in
  let V := V_add V steering ["angle"] [] false None in
  let V := V_add V throttle ["throttle"] [] false None in
  let inputs := tub_inputs in
  let types := tub_types in
  let tub := TubWriter (TUB_PATH cfg) inputs types in
  let V := V_add V tub inputs [] false (Some "recording") in
  Ok {| a_vehicle := V;
        a_rate_hz := DRIVE_LOOP_HZ cfg;
        a_max_loop_count := MAX_LOOPS cfg |}.

(** *** The record arithmetic of [train] *)

Record split : Type := {
  total_train : Z;
  total_val : Z;
  steps_per_epoch : Z
}.

(** Lines 161-165, with [total_records = len(tubgroup.df)] given. *)
Definition train_split (cfg : config) (total_records : Z) : result split :=
  let* prod := mul_int_float total_records (TRAIN_TEST_SPLIT cfg) in
  let* total_train := int_of_float prod in
  let total_val := total_records - total_train in
  let* steps_per_epoch := floordiv total_train (BATCH_SIZE cfg) in
  Ok {| total_train := total_train;
        total_val := total_val;
        steps_per_epoch := steps_per_epoch |}.

End Manage.

Import Manage.

(* ===================================================================== *)
(** ** The vehicle loop *)
(* ===================================================================== *)

Module Vehicle.

(** Modelled from the spec: the Shared State Bus of [Vehicle] (§3, §4.1),
    whose code is not in [manage.py]: a mapping from signal keys to
    values; a key that was never written reads as the default, here
    [None]. *)
Definition bus_get (b : gmap string value) (k : string) : value :=
  default VNone (b !! k).

(** Modelled from the spec: [get_many] of the Bus (§4.1), the values of
    the keys in the declared order. *)
Definition get_many (b : gmap string value) (ks : list string) : list value :=
  map (bus_get b) ks.

(** Modelled from the spec: the positional write of a unit's results at
    its output keys (§4.3 step 4); last writer wins. *)
Fixpoint put_many (b : gmap string value) (ks : list string)
         (vs : list value) : gmap string value :=
  match ks, vs with
  | k :: ks', v :: vs' => put_many (<[k := v]> b) ks' vs'
  | _, _ => b
  end.

(** Modelled from the spec: the write of §4.3 step 4 with the arity check
    of §7; a result tuple of another length than the declared outputs
    is a [RegistrationError]. *)
Definition write_outputs (b : gmap string value) (ks : list string)
           (vs : list value) : result (gmap string value) :=
  if Nat.eqb (List.length ks) (List.length vs)
  then Ok (put_many b ks vs)
  else Raise RegistrationError.

(** Modelled from the spec: the Run Condition Value (§3, §4.3 step 1),
    true when no key is declared, else the truth value of the Bus entry. *)
Definition run_condition_value (e : entry) (b : gmap string value) : bool :=
  match e_run_condition e with
  | None => true
  | Some k => truthy (bus_get b k)
  end.

(** Modelled from the spec: what the scheduler did with the unit at
    position [i] of the registration order in a tick (§4.3): skipped it on
    a false run condition, or invoked it on the gathered inputs. *)
Inductive event : Type :=
| Skipped (i : nat)
| Invoked (i : nat) (args results : list value).

Section Runtime.

(** The state of everything outside the scheduler: devices, background
    threads, the file system. *)
Context {W : Type}.

(** Modelled from the spec: the external collaborators of §6 (clock,
    camera, input controller, pilot model, actuators, logger), none of
    which is in [manage.py].  Each honours the unit contract of its
    registration in [drive]: it takes the registered inputs and yields
    one result per registered output key.  A threaded unit is polled:
    it is handed the inputs and yields its latest completed results. *)
Record collaborators : Type := {
  clock_run : W -> W * value;
  camera_poll : W -> W * value;
  controller_poll : part -> W -> value -> W * (value * value * value * value);
  pilot_run : pilot -> option value -> W -> value -> W * (value * value);
  steering_run : W -> value -> W;
  throttle_run : W -> value -> W;
  tub_run : W -> list value -> W;
  start_background : part -> list value -> W -> W;
  stop_and_join : part -> W -> W;
  between_ticks : W -> W;
  expanduser : string -> string;
  path_join : string -> string -> string;
  tub_group_len : value -> Z
}.

Variable ext : collaborators.

(** Modelled from the spec: one invocation of a unit (§4.2), for the
    parts [drive] registers.  A [Lambda] calls its function on the
    gathered inputs; its results are the items of a returned tuple, or
    the one value returned. *)
Definition invoke (p : part) (w : W) (args : list value)
  : result (W * list value) :=
  match p, args with
  | Timestamp, [] =>
      let '(w', t) := clock_run ext w in Ok (w', [t])
  | RealSenseCamera, [] =>
      let '(w', img) := camera_poll ext w in Ok (w', [img])
  | PS4JoystickController _ _ _, [img]
  | LocalWebController _, [img] =>
      let '(w', (a, t, m, r)) := controller_poll ext p w img in
      Ok (w', [a; t; m; r])
  | Lambda f, _ =>
      let* v := call f args in Ok (w, ret_values v)
  | Pilot kl loaded, [img] =>
      let '(w', (a, t)) := pilot_run ext kl loaded w img in
      Ok (w', [a; t])
  | PWMSteering _ _ _, [angle] => Ok (steering_run ext w angle, [])
  | PWMThrottle _ _ _ _, [throttle] => Ok (throttle_run ext w throttle, [])
  | TubWriter _ inputs _, _ =>
      if Nat.eqb (List.length args) (List.length inputs)
      then Ok (tub_run ext w args, [])
      else Raise AssertionError
  | _, _ => Raise TypeError
  end.

(** Modelled from the spec: what a tick works on, the world, the Bus and
    the log of the tick so far. *)
Record state : Type := {
  world : W;
  bus : gmap string value;
  log : list event
}.

(** Modelled from the spec: the scheduler's treatment of one unit in a
    tick (§4.3, steps 1 to 4). *)
Definition step_unit (i : nat) (e : entry) (s : state) : result state :=
  if run_condition_value e (bus s) then
    let args := get_many (bus s) (e_inputs e) in
    let* r := invoke (e_part e) (world s) args in
    let* b' := write_outputs (bus s) (e_outputs e) (snd r) in
    Ok {| world := fst r; bus := b';
          log := (log s ++ [Invoked i args (snd r)])%list |}
  else
    Ok {| world := world s; bus := bus s;
          log := (log s ++ [Skipped i])%list |}.

(** Modelled from the spec: the units from position [i] on, in
    registration order; a failing invocation aborts the tick (§4.3). *)
Fixpoint run_units (i : nat) (us : list entry) (s : state) : result state :=
  match us with
  | [] => Ok s
  | e :: us' => let* s' := step_unit i e s in run_units (S i) us' s'
  end.

(** Modelled from the spec: one scheduler tick (§4.3). *)
Definition tick (V : vehicle) (w : W) (b : gmap string value) : result state :=
  run_units 0 V {| world := w; bus := b; log := [] |}.

(** *** Lifecycle *)

(** Modelled from the spec: the states of the loop (§4.3). *)
Inductive phase : Type := Idle | Running | Stopping | Stopped.

(** Modelled from the spec: the background thread of a threaded unit,
    from its start to its join (§3). *)
Inductive thread : Type := Alive | Joined.

(** Modelled from the spec: the loop's state; the ticks executed so far,
    the threads by position of their unit, and the failure of a tick if
    one occurred. *)
Record loop : Type := {
  l_phase : phase;
  l_ticks : nat;
  l_threads : gmap nat thread;
  l_world : W;
  l_bus : gmap string value;
  l_failure : option exn
}.

(** Modelled from the spec: Idle to Running (§4.3); every threaded
    unit, in registration order, has its background loop started with
    its initial inputs read from the Bus. *)
Fixpoint start_threads (i : nat) (us : list entry) (b : gmap string value)
         (w : W) (th : gmap nat thread) : W * gmap nat thread :=
  match us with
  | [] => (w, th)
  | e :: us' =>
      if e_threaded e
      then start_threads (S i) us' b
             (start_background ext (e_part e) (get_many b (e_inputs e)) w)
             (<[i := Alive]> th)
      else start_threads (S i) us' b w th
  end.

(** Modelled from the spec: Stopping to Stopped (§4.3); every threaded
    unit, in registration order, is told to stop and its thread is
    joined. *)
Fixpoint stop_threads (i : nat) (us : list entry)
         (w : W) (th : gmap nat thread) : W * gmap nat thread :=
  match us with
  | [] => (w, th)
  | e :: us' =>
      if e_threaded e
      then stop_threads (S i) us' (stop_and_join ext (e_part e) w)
                        (<[i := Joined]> th)
      else stop_threads (S i) us' w th
  end.

(** Modelled from the spec: the configured maximum tick count is reached
    (§4.3); never when none is configured. *)
Definition reached (max_loop_count : option nat) (ticks : nat) : bool :=
  match max_loop_count with
  | Some n => Nat.leb n ticks
  | None => false
  end.

(** Modelled from the spec: one transition of the loop's state machine
    (§4.3): Idle starts the threads; Running stops when the maximum
    tick count is reached and otherwise executes one tick, a failing
    tick leading to Stopping with the failure kept; Stopping joins the
    threads; Stopped is final.  External stop signals are not part of
    the model. *)
Definition lifecycle_step (V : vehicle) (max_loop_count : option nat)
           (s : loop) : loop :=
  match l_phase s with
  | Idle =>
      let '(w, th) := start_threads 0 V (l_bus s) (l_world s) (l_threads s) in
      {| l_phase := Running; l_ticks := l_ticks s; l_threads := th;
         l_world := w; l_bus := l_bus s; l_failure := l_failure s |}
  | Running =>
      if reached max_loop_count (l_ticks s) then
        {| l_phase := Stopping; l_ticks := l_ticks s;
           l_threads := l_threads s; l_world := l_world s;
           l_bus := l_bus s; l_failure := l_failure s |}
      else
        match tick V (l_world s) (l_bus s) with
        | Ok s' =>
            {| l_phase := Running; l_ticks := S (l_ticks s);
               l_threads := l_threads s;
               l_world := between_ticks ext (world s');
               l_bus := bus s'; l_failure := l_failure s |}
        | Raise e =>
            {| l_phase := Stopping; l_ticks := l_ticks s;
               l_threads := l_threads s; l_world := l_world s;
               l_bus := l_bus s; l_failure := Some e |}
        end
  | Stopping =>
      let '(w, th) := stop_threads 0 V (l_world s) (l_threads s) in
      {| l_phase := Stopped; l_ticks := l_ticks s; l_threads := th;
         l_world := w; l_bus := l_bus s; l_failure := l_failure s |}
  | Stopped => s
  end.

(** Modelled from the spec: the loop before [start], Idle on an empty
    Bus (§3). *)
Definition loop_init (w : W) : loop :=
  {| l_phase := Idle; l_ticks := 0; l_threads := ∅;
     l_world := w; l_bus := ∅; l_failure := None |}.

(** Modelled from the spec: the loop after [fuel] transitions from Idle on
    an empty Bus. *)
Definition run_loop (V : vehicle) (max_loop_count : option nat)
           (w : W) (fuel : nat) : loop :=
  Nat.iter fuel (lifecycle_step V max_loop_count) (loop_init w).

(** Modelled from the spec: what [fuel] transitions make of a call of
    [V.start]: it has returned, with the loop stopped, or it is still
    under way. *)
Inductive started : Type :=
| Returned (l : loop)
| Unfinished (l : loop).

(** Modelled from the spec: [V.start(rate_hz, max_loop_count)] (§4.3,
    §4.4); it returns when the loop is stopped, and a failure of a tick
    is raised again then.  Pacing by [rate_hz] is real time and has no
    counterpart here. *)
Definition V_start (V : vehicle) (rate_hz : value)
           (max_loop_count : option nat) (w : W) (fuel : nat)
  : result started :=
  let l := run_loop V max_loop_count w fuel in
  match l_phase l with
  | Stopped =>
      match l_failure l with
      | Some e => Raise e
      | None => Ok (Returned l)
      end
  | _ => Ok (Unfinished l)
  end.

End Runtime.

Arguments collaborators : clear implicits.
Arguments state : clear implicits.
Arguments loop : clear implicits.
Arguments started : clear implicits.

End Vehicle.

Import Vehicle.

(* ===================================================================== *)
(** ** The entry points: [drive], [train], [__main__] *)
(* ===================================================================== *)

Module Script.

(** What [train] hands to [kl.train]. *)
Record training : Type := {
  t_pilot : pilot;
  t_base_model : option value;
  t_saved_model_path : value;
  t_tub_names : value;
  t_split : split
}.

(** The parsed command line, one constructor per usage pattern of the
    docstring.  [--model] is mandatory for [train]. *)
Inductive cli : Type :=
| CmdDrive (model : option string) (js chaos : bool) (type : option string)
| CmdTrain (tub : option string) (model : string) (type : option string)
           (base_model : option string) (no_cache : bool).

(** [args['--opt']] for an option that takes an argument: the string
    given, [None] when the option is absent. *)
Definition opt (o : option string) : value :=
  match o with
  | Some s => VStr s
  | None => VNone
  end.

Section Run.

Context {W : Type}.
Variable ext : collaborators W.

(** [os.path.expanduser(p)] *)
Definition py_expanduser (p : value) : result value :=
  match p with
  | VStr s => Ok (VStr (expanduser ext s))
  | _ => Raise TypeError
  end.

(** [drive(cfg, model_path=None, model_type='linear-dropout',
    use_joystick=False, use_chaos=False)]; an argument the caller omits
    is [None] here and takes its default. *)
Definition drive (cfg : config)
           (model_path model_type use_joystick use_chaos : option value)
           (w : W) (fuel : nat) : result (started W) :=
  let model_path := default VNone model_path in
  let model_type := default (VStr "linear-dropout") model_type in
  let use_joystick := default (VBool false) use_joystick in
  let use_chaos := default (VBool false) use_chaos in
  let* a := drive_assemble cfg model_path model_type use_joystick use_chaos in
  V_start ext (a_vehicle a) (a_rate_hz a) (a_max_loop_count a) w fuel.

(** [os.path.join(a, b)] for a string [b]; anything but a string for [a]
    raises [TypeError]. *)
Definition py_path_join (a : value) (b : string) : result value :=
  match a with
  | VStr s => Ok (VStr (path_join ext s b))
  | _ => Raise TypeError
  end.

(** [train(cfg, tub_names, new_model_path, model_type='linear-dropout',
    base_model_path=None)]; what it prints is left out. *)
Definition train (cfg : config) (tub_names new_model_path : value)
           (model_type base_model_path : option value) : result training :=
  let model_type := default (VStr "linear-dropout") model_type in
  let base_model_path := default VNone base_model_path in
  let* new_model_path := py_expanduser new_model_path in
  let* kl := get_model model_type in
  let* base :=
    match base_model_path with
    | VNone => Ok None
    | p => let* p' := py_expanduser p in Ok (Some p')
    end in
  let* tub_names :=
    if negb (truthy tub_names) then py_path_join (DATA_PATH cfg) "*"
    else Ok tub_names in
  let total_records := tub_group_len ext tub_names in
  let* sp := train_split cfg total_records in
  Ok {| t_pilot := kl; t_base_model := base;
        t_saved_model_path := new_model_path;
        t_tub_names := tub_names; t_split := sp |}.

Inductive outcome : Type :=
| Drove (r : started W)
| Trained (t : training).

(** The [if __name__ == '__main__':] block. *)
Definition main (cfg : config) (args : cli) (w : W) (fuel : nat)
  : result outcome :=
  match args with
  | CmdDrive model js chaos type =>
      let* r := drive cfg (Some (opt model)) (Some (opt type))
                      (Some (VBool js)) (Some (VBool chaos)) w fuel in
      Ok (Drove r)
  | CmdTrain tub model type base_model no_cache =>
      let tub := opt tub in
      let new_model_path := VStr model in
      let model_type := opt type in
      let base_model_path := opt base_model in
      let cache := negb no_cache in
      let* t := train cfg tub new_model_path
                      (Some model_type) (Some base_model_path) in
      Ok (Trained t)
  end.

End Run.

End Script.

Import Script.

(* ===================================================================== *)
(** ** Observations on registrations and on the log of a tick *)
(* ===================================================================== *)

Module Trace.

(** The unit at position [i] was invoked / was skipped in the log. *)
Definition invoked (i : nat) (l : list event) : bool :=
  existsb (fun ev => match ev with
                     | Invoked j _ _ => Nat.eqb i j
                     | Skipped _ => false
                     end) l.

Definition skipped (i : nat) (l : list event) : bool :=
  existsb (fun ev => match ev with
                     | Skipped j => Nat.eqb i j
                     | Invoked _ _ _ => false
                     end) l.

(** The keys a unit reads: its inputs and its run-condition key. *)
Definition reads (e : entry) : list string :=
  (e_inputs e ++ match e_run_condition e with
                 | Some k => [k]
                 | None => []
                 end)%list.

(** Every key read by a unit is an output of a unit registered strictly
    earlier. *)
Definition fed_from_upstream (V : vehicle) : Prop :=
  forall (i : nat) (e : entry) (k : string),
    V !! i = Some e -> k ∈ reads e ->
    exists (j : nat) (e' : entry),
      (j < i)%nat /\ V !! j = Some e' /\ k ∈ e_outputs e'.

(** The executable form of [fed_from_upstream], with the keys output so
    far in [seen]. *)
Fixpoint wired (seen : list string) (us : list entry) : bool :=
  match us with
  | [] => true
  | e :: us' =>
      forallb (fun k => bool_decide (k ∈ seen)) (reads e)
      && wired (seen ++ e_outputs e)%list us'
  end.

(** The inputs that were read in a tick without having been written
    earlier in that tick: for each invoked unit, in log order, its input
    keys that are not among the outputs of the units invoked before it.
    [fresh] holds the keys written so far. *)
Fixpoint stale (V : vehicle) (fresh : list string) (l : list event)
  : list (nat * string) :=
  match l with
  | [] => []
  | Skipped _ :: l' => stale V fresh l'
  | Invoked i _ _ :: l' =>
      match V !! i with
      | Some e =>
          (map (pair i) (filter (fun k => k ∉ fresh) (e_inputs e))
           ++ stale V (fresh ++ e_outputs e) l')%list
      | None => stale V fresh l'
      end
  end.

(** The positions of the threaded units of a vehicle. *)
Fixpoint threaded_from (i : nat) (us : list entry) : list nat :=
  match us with
  | [] => []
  | e :: us' =>
      if e_threaded e then i :: threaded_from (S i) us'
      else threaded_from (S i) us'
  end.

(** The four model types [get_model] knows. *)
Definition known_model_type (model_type : value) : Prop :=
  model_type = VStr "linear" \/ model_type = VStr "linear-dropout"
  \/ model_type = VStr "linear-cropped-dropout" \/ model_type = VStr "rnn".

(** A float that is not negative: a zero of either sign, or a positive
    finite number or infinity. *)
Definition nonneg (x : spec_float) : bool :=
  match x with
  | S754_zero _ => true
  | S754_finite s _ _ => negb s
  | S754_infinity s => negb s
  | S754_nan => false
  end.

Definition finite (x : spec_float) : bool :=
  match x with
  | S754_zero _ | S754_finite _ _ _ => true
  | _ => false
  end.

(** The floor of the real number a finite float stands for,
    [(-1)^s * m * 2^e]. *)
Definition float_floor (x : spec_float) : option Z :=
  match x with
  | S754_zero _ => Some 0
  | S754_finite s m e =>
      let num := if s then Z.neg m else Z.pos m in
      Some (if 0 <=? e then num * 2 ^ e else num / 2 ^ (- e))
  | _ => None
  end.

End Trace.

Import Trace.

(* ===================================================================== *)
(** ** A concrete car for examples *)
(* ===================================================================== *)

Module Demo.

(** 0.8 as a binary64 *)
Definition f0_8 : spec_float := S754_finite false 7205759403792794 (-53).

Definition cfg : config := {|
  JOYSTICK_MAX_THROTTLE := VFloat f0_8;
  JOYSTICK_STEERING_SCALE := VInt 1;
  AUTO_RECORD_ON_THROTTLE := VBool true;
  STEERING_CHANNEL := VInt 1;
  STEERING_LEFT_PWM := VInt 420;
  STEERING_RIGHT_PWM := VInt 360;
  THROTTLE_CHANNEL := VInt 0;
  THROTTLE_FORWARD_PWM := VInt 400;
  THROTTLE_STOPPED_PWM := VInt 360;
  THROTTLE_REVERSE_PWM := VInt 310;
  TUB_PATH := VStr "/home/car/tub";
  DATA_PATH := VStr "/home/car/data";
  DRIVE_LOOP_HZ := VInt 20;
  MAX_LOOPS := Some 3%nat;
  BATCH_SIZE := 128;
  TRAIN_TEST_SPLIT := f0_8
|}.

(** Collaborators over a world that counts clock readings; the
    controller reports the given mode and recording flag, the pilot
    always steers to 1 at throttle 1. *)
Definition ext (mode : string) (recording : bool) : collaborators nat := {|
  clock_run := fun w => (S w, VInt (Z.of_nat w));
  camera_poll := fun w => (w, VBuf (N.of_nat w));
  controller_poll := fun _ w _ =>
    (w, (VInt 0, VInt 0, VStr mode, VBool recording));
  pilot_run := fun _ _ w _ => (w, (VInt 1, VInt 1));
  steering_run := fun w _ => w;
  throttle_run := fun w _ => w;
  tub_run := fun w _ => w;
  start_background := fun _ _ w => w;
  stop_and_join := fun _ w => w;
  between_ticks := fun w => w;
  expanduser := fun s => s;
  path_join := fun d _ => d;
  tub_group_len := fun _ => 1000
|}.

(** The vehicle [drive] assembles for the web controller and the
    ['linear'] model. *)
Definition car : vehicle :=
  match drive_assemble cfg VNone (VStr "linear") (VBool false) (VBool false) with
  | Ok a => a_vehicle a
  | Raise _ => []
  end.

End Demo.

(* ===================================================================== *)
(** ** Observations on the registrations of [drive] and on [train] *)
(* ===================================================================== *)

Module Wiring.

(** What a registration declares apart from the part itself: its input
    keys, its output keys, the threaded flag and the run-condition key. *)
Definition descriptor (e : entry)
  : list string * list string * bool * option string :=
  (e_inputs e, e_outputs e, e_threaded e, e_run_condition e).

(** The output keys of all units, in registration order. *)
Definition all_outputs (V : vehicle) : list string :=
  concat (map e_outputs V).

(** Every output key of a unit is read, as an input or as a run
    condition, by a unit registered strictly later. *)
Definition read_downstream (V : vehicle) : Prop :=
  forall (j : nat) (e' : entry) (k : string),
    V !! j = Some e' -> k ∈ e_outputs e' ->
    exists (i : nat) (e : entry),
      (j < i)%nat /\ V !! i = Some e /\ k ∈ reads e.

(** The executable form of [read_downstream]. *)
Fixpoint consumed (us : list entry) : bool :=
  match us with
  | [] => true
  | e :: us' =>
      forallb (fun k => existsb (fun e2 => bool_decide (k ∈ reads e2)) us')
              (e_outputs e)
      && consumed us'
  end.

(** The parts that sense rather than compute: the clock, the camera and
    the input controller [drive] selected. *)
Definition senses (cfg : config) (use_joystick use_chaos : value)
           (p : part) : Prop :=
  p = Timestamp \/ p = RealSenseCamera
  \/ p = controller cfg use_joystick use_chaos.

Definition is_tub_writer (p : part) : bool :=
  match p with
  | TubWriter _ _ _ => true
  | _ => false
  end.

Definition is_actuator (p : part) : bool :=
  match p with
  | PWMSteering _ _ _ | PWMThrottle _ _ _ _ => true
  | _ => false
  end.

Definition is_zero (x : spec_float) : bool :=
  match x with
  | S754_zero _ => true
  | _ => false
  end.

Definition is_str (v : value) : bool :=
  match v with
  | VStr _ => true
  | _ => false
  end.

(** The exceptions the arithmetic of [train] can raise. *)
Definition arithmetic_error (e : exn) : Prop :=
  e = OverflowError
  \/ e = ValueError "cannot convert float NaN to integer"
  \/ e = ZeroDivisionError.

(** The demo configuration with a split of -0.5. *)
Definition cfg_negative_split : config := {|
  JOYSTICK_MAX_THROTTLE := JOYSTICK_MAX_THROTTLE Demo.cfg;
  JOYSTICK_STEERING_SCALE := JOYSTICK_STEERING_SCALE Demo.cfg;
  AUTO_RECORD_ON_THROTTLE := AUTO_RECORD_ON_THROTTLE Demo.cfg;
  STEERING_CHANNEL := STEERING_CHANNEL Demo.cfg;
  STEERING_LEFT_PWM := STEERING_LEFT_PWM Demo.cfg;
  STEERING_RIGHT_PWM := STEERING_RIGHT_PWM Demo.cfg;
  THROTTLE_CHANNEL := THROTTLE_CHANNEL Demo.cfg;
  THROTTLE_FORWARD_PWM := THROTTLE_FORWARD_PWM Demo.cfg;
  THROTTLE_STOPPED_PWM := THROTTLE_STOPPED_PWM Demo.cfg;
  THROTTLE_REVERSE_PWM := THROTTLE_REVERSE_PWM Demo.cfg;
  TUB_PATH := TUB_PATH Demo.cfg;
  DATA_PATH := DATA_PATH Demo.cfg;
  DRIVE_LOOP_HZ := DRIVE_LOOP_HZ Demo.cfg;
  MAX_LOOPS := MAX_LOOPS Demo.cfg;
  BATCH_SIZE := BATCH_SIZE Demo.cfg;
  TRAIN_TEST_SPLIT := S754_finite true 4503599627370496 (-53)
|}.

(** The demo configuration with a [DATA_PATH] that is not a string. *)
Definition cfg_no_data_path : config := {|
  JOYSTICK_MAX_THROTTLE := JOYSTICK_MAX_THROTTLE Demo.cfg;
  JOYSTICK_STEERING_SCALE := JOYSTICK_STEERING_SCALE Demo.cfg;
  AUTO_RECORD_ON_THROTTLE := AUTO_RECORD_ON_THROTTLE Demo.cfg;
  STEERING_CHANNEL := STEERING_CHANNEL Demo.cfg;
  STEERING_LEFT_PWM := STEERING_LEFT_PWM Demo.cfg;
  STEERING_RIGHT_PWM := STEERING_RIGHT_PWM Demo.cfg;
  THROTTLE_CHANNEL := THROTTLE_CHANNEL Demo.cfg;
  THROTTLE_FORWARD_PWM := THROTTLE_FORWARD_PWM Demo.cfg;
  THROTTLE_STOPPED_PWM := THROTTLE_STOPPED_PWM Demo.cfg;
  THROTTLE_REVERSE_PWM := THROTTLE_REVERSE_PWM Demo.cfg;
  TUB_PATH := TUB_PATH Demo.cfg;
  DATA_PATH := VNone;
  DRIVE_LOOP_HZ := DRIVE_LOOP_HZ Demo.cfg;
  MAX_LOOPS := MAX_LOOPS Demo.cfg;
  BATCH_SIZE := BATCH_SIZE Demo.cfg;
  TRAIN_TEST_SPLIT := TRAIN_TEST_SPLIT Demo.cfg
|}.

(** The vehicle [drive] assembles for the joystick, with the chaos flag
    set, a model path and the ['rnn'] model. *)
Definition joystick_car : vehicle :=
  match drive_assemble Demo.cfg (VStr "/home/car/models/pilot") (VStr "rnn")
                       (VBool true) (VBool true) with
  | Ok a => a_vehicle a
  | Raise _ => []
  end.

End Wiring.

Import Wiring.

(* ===================================================================== *)
(** ** The code on concrete inputs *)
(* ===================================================================== *)

Example pilot_condition_user : pilot_condition (VStr "user") = VBool false.
Proof. reflexivity. Qed.

Example pilot_condition_local : pilot_condition (VStr "local") = VBool true.
Proof. reflexivity. Qed.

Example pilot_condition_none : pilot_condition VNone = VBool true.
Proof. reflexivity. Qed.

Example drive_mode_unknown :
  drive_mode (VStr "auto") (VInt 1) (VInt 2) (VInt 3) (VInt 4) = (VInt 3, VInt 4).
Proof. reflexivity. Qed.

Example drive_mode_fn_four_args :
  call drive_mode_fn [VStr "user"; VInt 1; VInt 2; VInt 3] = Raise TypeError.
Proof. reflexivity. Qed.

Example get_model_rnn : get_model (VStr "rnn") = Ok KerasRNN_LSTM.
Proof. reflexivity. Qed.

Example get_model_other :
  get_model (VStr "Linear") = Raise (ValueError "Unknown model type").
Proof. reflexivity. Qed.

(** [int(-1.5)] is [-1], not the floor [-2]. *)
Example int_of_float_negative :
  int_of_float (S754_finite true 3 (-1)) = Ok (-1)
  /\ float_floor (S754_finite true 3 (-1)) = Some (-2).
Proof. split; reflexivity. Qed.

(** [10 * 0.8] is [8.0]. *)
Example train_split_ten :
  train_split Demo.cfg 10
  = Ok {| total_train := 8; total_val := 2; steps_per_epoch := 0 |}.
Proof. vm_compute. reflexivity. Qed.

(** A tick in mode ['local_angle'] while recording: every unit is invoked,
    the pilot's angle and the user's throttle reach the actuators. *)
Example tick_local_angle :
  exists s : state nat,
    tick (Demo.ext "local_angle" true) Demo.car 0%nat ∅ = Ok s
    /\ invoked 4 (log s) = true /\ invoked 8 (log s) = true
    /\ bus_get (bus s) "angle" = VInt 1
    /\ bus_get (bus s) "throttle" = VInt 0.
Proof.
  eexists. split; [vm_compute; reflexivity |].
  repeat split; vm_compute; reflexivity.
Qed.

(** With [MAX_LOOPS = 3] the loop is stopping after five transitions and
    has returned after six. *)
Example loop_of_three :
  l_phase (run_loop (Demo.ext "user" false) Demo.car (Some 3%nat) 0%nat 5) = Stopping
  /\ l_phase (run_loop (Demo.ext "user" false) Demo.car (Some 3%nat) 0%nat 6) = Stopped
  /\ l_ticks (run_loop (Demo.ext "user" false) Demo.car (Some 3%nat) 0%nat 6) = 3%nat.
Proof. repeat split; vm_compute; reflexivity. Qed.

(* ===================================================================== *)
(** ** Properties of the closures and of [get_model] *)
(* ===================================================================== *)

Lemma eq_str_true (v : value) (lit : string) :
  eq_str v lit = true <-> v = VStr lit.
Proof.
  destruct v; simpl; try (split; [discriminate | intros H; discriminate H]).
  rewrite String.eqb_eq. split; [intros -> | intros [= ->]]; reflexivity.
Qed.

Lemma eq_str_false (v : value) (lit : string) :
  eq_str v lit = false <-> v <> VStr lit.
Proof.
  rewrite <- eq_str_true. destruct (eq_str v lit); split; congruence.
Qed.

Lemma pilot_condition_false_iff (mode : value) :
  pilot_condition mode = VBool false <-> mode = VStr "user".
Proof.
  unfold pilot_condition. rewrite <- eq_str_true.
  destruct (eq_str mode "user"); split; congruence.
Qed.

Lemma pilot_condition_true_iff (mode : value) :
  pilot_condition mode = VBool true <-> mode <> VStr "user".
Proof.
  unfold pilot_condition. rewrite <- eq_str_false.
  destruct (eq_str mode "user"); split; congruence.
Qed.

Lemma truthy_pilot_condition (mode : value) :
  truthy (pilot_condition mode) = negb (eq_str mode "user").
Proof. unfold pilot_condition. destruct (eq_str mode "user"); reflexivity. Qed.

(** C4.  [drive_mode] returns the user's pair in mode ['user'], the pilot's
    angle with the user's throttle in mode ['local_angle'] and the pilot's
    pair for every other mode value; called on five arguments it returns
    and never raises; in mode ['user'] [pilot_condition] is [False] and the
    result does not depend on the pilot's two outputs. *)
Theorem drive_mode_arbitration (mode ua ut pa pt : value) :
  (mode = VStr "user" -> drive_mode mode ua ut pa pt = (ua, ut))
  /\ (mode = VStr "local_angle" -> drive_mode mode ua ut pa pt = (pa, ut))
  /\ (mode <> VStr "user" -> mode <> VStr "local_angle" ->
      drive_mode mode ua ut pa pt = (pa, pt))
  /\ call drive_mode_fn [mode; ua; ut; pa; pt]
     = Ok (VTuple [fst (drive_mode mode ua ut pa pt);
                   snd (drive_mode mode ua ut pa pt)])
  /\ (mode = VStr "user" ->
      pilot_condition mode = VBool false
      /\ forall pa' pt' : value,
           drive_mode mode ua ut pa' pt' = drive_mode mode ua ut pa pt).
Proof.
  repeat split.
  - intros ->. reflexivity.
  - intros ->. reflexivity.
  - intros Hu Hl. unfold drive_mode.
    apply eq_str_false in Hu, Hl. rewrite Hu, Hl. reflexivity.
  - unfold call, drive_mode_fn. simpl.
    destruct (drive_mode mode ua ut pa pt). reflexivity.
  - subst mode. reflexivity.
  - subst mode. reflexivity.
Qed.

Lemma drive_mode_arbitration_witness :
  drive_mode (VStr "user") (VInt 1) (VInt 2) (VInt 3) (VInt 4) = (VInt 1, VInt 2)
  /\ drive_mode (VStr "local_angle") (VInt 1) (VInt 2) (VInt 3) (VInt 4)
     = (VInt 3, VInt 2)
  /\ drive_mode VNone (VInt 1) (VInt 2) (VInt 3) (VInt 4) = (VInt 3, VInt 4)
  /\ pilot_condition (VStr "user") = VBool false.
Proof.
  split; [| split; [| split]].
  - apply (proj1 (drive_mode_arbitration (VStr "user") (VInt 1) (VInt 2)
                                         (VInt 3) (VInt 4))).
    reflexivity.
  - apply (proj1 (proj2 (drive_mode_arbitration (VStr "local_angle") (VInt 1)
                           (VInt 2) (VInt 3) (VInt 4)))).
    reflexivity.
  - apply (proj1 (proj2 (proj2 (drive_mode_arbitration VNone (VInt 1) (VInt 2)
                                   (VInt 3) (VInt 4))))); discriminate.
  - apply (proj2 (proj2 (proj2 (proj2
             (drive_mode_arbitration (VStr "user") (VInt 1) (VInt 2)
                                     (VInt 3) (VInt 4)))))).
    reflexivity.
Defined.

Lemma get_model_cases (model_type : value) :
  (known_model_type model_type /\ returns (get_model model_type))
  \/ (~ known_model_type model_type
      /\ get_model model_type = Raise (ValueError "Unknown model type")).
Proof.
  unfold get_model, known_model_type, returns.
  destruct (eq_str model_type "linear") eqn:E1;
    [apply eq_str_true in E1; left; eauto |].
  destruct (eq_str model_type "linear-dropout") eqn:E2;
    [apply eq_str_true in E2; left; eauto |].
  destruct (eq_str model_type "linear-cropped-dropout") eqn:E3;
    [apply eq_str_true in E3; left; eauto 6 |].
  destruct (eq_str model_type "rnn") eqn:E4;
    [apply eq_str_true in E4; left; eauto 6 |].
  apply eq_str_false in E1, E2, E3, E4. right. split; [tauto | reflexivity].
Qed.

(* ===================================================================== *)
(** ** Properties of the assembly in [drive] *)
(* ===================================================================== *)

(** The vehicle [drive] assembles, written out. *)
Lemma drive_assemble_inv (cfg : config) (mp mt js ch : value) (a : assembled) :
  drive_assemble cfg mp mt js ch = Ok a ->
  exists (kl : pilot) (loaded : option value),
    get_model mt = Ok kl /\
    a_max_loop_count a = MAX_LOOPS cfg /\
    a_rate_hz a = DRIVE_LOOP_HZ cfg /\
    a_vehicle a =
      [ {| e_part := Timestamp; e_inputs := []; e_outputs := ["timestamp"];
           e_threaded := false; e_run_condition := None |};
        {| e_part := RealSenseCamera; e_inputs := [];
           e_outputs := ["cam/image_array"];
           e_threaded := true; e_run_condition := None |};
        {| e_part := controller cfg js ch; e_inputs := ["cam/image_array"];
           e_outputs := ["user/angle"; "user/throttle"; "user/mode"; "recording"];
           e_threaded := true; e_run_condition := None |};
        {| e_part := Lambda pilot_condition_fn; e_inputs := ["user/mode"];
           e_outputs := ["run_pilot"];
           e_threaded := false; e_run_condition := None |};
        {| e_part := Pilot kl loaded;
           e_inputs := ["cam/image_array"];
           e_outputs := ["pilot/angle"; "pilot/throttle"];
           e_threaded := false; e_run_condition := Some "run_pilot" |};
        {| e_part := Lambda drive_mode_fn;
           e_inputs := ["user/mode"; "user/angle"; "user/throttle";
                        "pilot/angle"; "pilot/throttle"];
           e_outputs := ["angle"; "throttle"];
           e_threaded := false; e_run_condition := None |};
        {| e_part := PWMSteering (STEERING_CHANNEL cfg) (STEERING_LEFT_PWM cfg)
                                 (STEERING_RIGHT_PWM cfg);
           e_inputs := ["angle"]; e_outputs := [];
           e_threaded := false; e_run_condition := None |};
        {| e_part := PWMThrottle (THROTTLE_CHANNEL cfg) (THROTTLE_FORWARD_PWM cfg)
                                 (THROTTLE_STOPPED_PWM cfg)
                                 (THROTTLE_REVERSE_PWM cfg);
           e_inputs := ["throttle"]; e_outputs := [];
           e_threaded := false; e_run_condition := None |};
        {| e_part := TubWriter (TUB_PATH cfg) tub_inputs tub_types;
           e_inputs := tub_inputs; e_outputs := [];
           e_threaded := false; e_run_condition := Some "recording" |} ].
Proof.
  unfold drive_assemble. intros H.
  destruct (get_model mt) as [kl |]; simpl in H; [| discriminate].
  injection H as <-. exists kl. eexists. repeat split.
Qed.

Lemma controller_not_lambda (cfg : config) (js ch : value) (f : pyfun) :
  controller cfg js ch <> Lambda f.
Proof. unfold controller. destruct (truthy js); discriminate. Qed.

(** Splits a lookup in a list that is written out into one case per
    position. *)
Ltac each_position H :=
  repeat match type of H with
         | (_ :: _) !! ?i = Some _ =>
             destruct i; [injection H as <- | simpl in H]
         | [] !! _ = Some _ => discriminate H
         end.

(** C5.  Every [Lambda] registered by [drive] has as many input keys as
    its function has parameters, and the function, called on that many
    arguments, returns as many values as the unit has output keys:
    [pilot_condition] one input (['user/mode']) and one output
    (['run_pilot']); [drive_mode] five inputs and a 2-tuple for
    (['angle'], ['throttle']). *)
Theorem lambda_units_arity (cfg : config) (mp mt js ch : value) (a : assembled) :
  drive_assemble cfg mp mt js ch = Ok a ->
  (forall (i : nat) (e : entry) (f : pyfun),
      a_vehicle a !! i = Some e -> e_part e = Lambda f ->
      List.length (e_inputs e) = List.length (params f)
      /\ forall args : list value,
           List.length args = List.length (params f) ->
           exists v, call f args = Ok v
                     /\ ret_arity v = List.length (e_outputs e))
  /\ (exists e, a_vehicle a !! 3%nat = Some e
                /\ e_part e = Lambda pilot_condition_fn
                /\ e_inputs e = ["user/mode"] /\ e_outputs e = ["run_pilot"]
                /\ List.length (params pilot_condition_fn) = 1%nat)
  /\ (exists e, a_vehicle a !! 5%nat = Some e
                /\ e_part e = Lambda drive_mode_fn
                /\ List.length (e_inputs e) = 5%nat
                /\ e_outputs e = ["angle"; "throttle"]
                /\ List.length (params drive_mode_fn) = 5%nat
                /\ forall m ua ut pa pt, exists x y,
                     call drive_mode_fn [m; ua; ut; pa; pt] = Ok (VTuple [x; y])).
Proof.
  intros H. apply drive_assemble_inv in H as (kl & loaded & _ & _ & _ & ->).
  split; [| split].
  - intros i e f Hi Hp.
    each_position Hi; simpl in Hp; try discriminate Hp.
    + exfalso. exact (controller_not_lambda _ _ _ _ Hp).
    + injection Hp as <-. split; [reflexivity |].
      intros args Hlen. destruct args as [| m [| ]]; try discriminate Hlen.
      exists (pilot_condition m). split; [reflexivity |].
      unfold pilot_condition. destruct (eq_str m "user"); reflexivity.
    + injection Hp as <-. split; [reflexivity |].
      intros args Hlen.
      destruct args as [| m [| ua [| ut [| pa [| pt [| ]]]]]];
        try discriminate Hlen.
      unfold call; simpl.
      destruct (drive_mode m ua ut pa pt). eexists. split; reflexivity.
  - eexists. repeat split.
  - eexists. repeat split.
    intros. unfold call; simpl.
    destruct (drive_mode m ua ut pa pt). eauto.
Qed.

Lemma lambda_units_arity_witness :
  exists e, Demo.car !! 5%nat = Some e
            /\ e_part e = Lambda drive_mode_fn
            /\ List.length (e_inputs e) = 5%nat
            /\ e_outputs e = ["angle"; "throttle"]
            /\ List.length (params drive_mode_fn) = 5%nat
            /\ forall m ua ut pa pt, exists x y,
                 call drive_mode_fn [m; ua; ut; pa; pt] = Ok (VTuple [x; y]).
Proof.
  apply (proj2 (proj2 (lambda_units_arity Demo.cfg VNone (VStr "linear")
                         (VBool false) (VBool false) _ eq_refl))).
Defined.

(** C8, as the code has it.  With the joystick selected the controller is
    built from the three joystick settings only: [drive] assembles the
    same vehicle whether [use_chaos] is set or not.  The web controller
    receives the flag. *)
Theorem joystick_ignores_chaos (cfg : config) (mp mt : value) :
  controller cfg (VBool true) (VBool true)
  = PS4JoystickController (JOYSTICK_MAX_THROTTLE cfg)
                          (JOYSTICK_STEERING_SCALE cfg)
                          (AUTO_RECORD_ON_THROTTLE cfg)
  /\ drive_assemble cfg mp mt (VBool true) (VBool true)
     = drive_assemble cfg mp mt (VBool true) (VBool false)
  /\ (forall use_chaos : value,
        controller cfg (VBool false) use_chaos = LocalWebController use_chaos).
Proof. repeat split. Qed.

(* ===================================================================== *)
(** ** The record arithmetic of [train] *)
(* ===================================================================== *)

Lemma binary_round_aux_sign (sx : bool) (mx ex : Z) (lx : location)
      (s : bool) (m : positive) (e : Z) :
  binary_round_aux prec emax sx mx ex lx = S754_finite s m e -> s = sx.
Proof.
  unfold binary_round_aux.
  destruct (shr_fexp prec emax mx ex lx) as [mrs' e'].
  destruct (shr_fexp prec emax _ e' loc_Exact) as [mrs'' e''].
  destruct (shr_m mrs''); try discriminate.
  destruct (e'' <=? emax - prec); congruence.
Qed.

(** [float(n)] of a non-negative [int] is a zero or a positive float. *)
Lemma float_of_int_nonneg (n : Z) (f : spec_float) :
  0 <= n -> float_of_int n = Ok f ->
  (exists s0, f = S754_zero s0) \/ (exists m e, f = S754_finite false m e)
  \/ f = S754_nan.
Proof.
  intros Hn. unfold float_of_int, binary_normalize.
  destruct n as [| p | p]; [| | lia].
  - intros [= <-]. eauto.
  - unfold binary_round.
    destruct (shl_align p 0 _) as [mz ez].
    destruct (binary_round_aux prec emax false (Z.pos mz) ez loc_Exact)
      as [s | s | | s m e] eqn:E; intros H; try discriminate H;
      injection H as <-; eauto.
    apply binary_round_aux_sign in E. subst s. eauto.
Qed.

(** The product of a non-negative [int] and a non-negative float, when it
    is finite, is a zero or has the positive sign. *)
Lemma mul_int_float_sign (n : Z) (x p : spec_float) :
  0 <= n -> nonneg x = true -> mul_int_float n x = Ok p -> finite p = true ->
  (exists s0, p = S754_zero s0) \/ (exists m e, p = S754_finite false m e).
Proof.
  intros Hn Hx. unfold mul_int_float.
  destruct (float_of_int n) as [fn |] eqn:Efn; simpl; [| discriminate].
  intros [= <-] Hfin.
  destruct (float_of_int_nonneg n fn Hn Efn) as [[s0 ->] | [(m & e & ->) | ->]].
  - destruct x; simpl in *; try discriminate; eauto.
  - destruct x as [sx | sx | | sx mx ex]; simpl in *; try discriminate; eauto.
    destruct sx; [discriminate |].
    destruct (binary_round_aux prec emax false _ _ loc_Exact)
      as [s | s | | s m' e'] eqn:E; try discriminate; eauto.
    apply binary_round_aux_sign in E. subst s. eauto.
  - discriminate.
Qed.

Lemma int_of_float_finite (p : spec_float) :
  finite p = true -> returns (int_of_float p).
Proof. destruct p; simpl; try discriminate; unfold returns; eauto. Qed.

(** On a zero or a positive float, truncation is the floor and is not
    negative. *)
Lemma int_of_float_floor (p : spec_float) (z : Z) :
  (exists s0, p = S754_zero s0) \/ (exists m e, p = S754_finite false m e) ->
  int_of_float p = Ok z -> float_floor p = Some z /\ 0 <= z.
Proof.
  intros [[s0 ->] | (m & e & ->)]; simpl; intros [= <-].
  - split; [reflexivity | lia].
  - split; [reflexivity |].
    destruct (0 <=? e) eqn:He.
    + apply Z.leb_le in He. apply Z.mul_nonneg_nonneg; [lia |].
      apply Z.pow_nonneg. lia.
    + apply Z.leb_gt in He. apply Z.div_pos; [lia |].
      apply Z.pow_pos_nonneg; lia.
Qed.

(** C10, as the code has it.  For [n >= 0] records [train] computes
    [total_train] as [int()] of the float product
    [n * cfg.TRAIN_TEST_SPLIT], which is the floor of that product when
    [cfg.TRAIN_TEST_SPLIT] is not negative, and [total_val = n -
    total_train], hence [total_train + total_val = n] always, and
    [steps_per_epoch] as [total_train // cfg.BATCH_SIZE], which for a
    non-negative split is 0 whenever [total_train < cfg.BATCH_SIZE]; the
    computation returns whenever the product is finite and the batch size
    is not 0. *)
Theorem train_split_counts (cfg : config) (n : Z) :
  0 <= n ->
  (forall p : spec_float,
      mul_int_float n (TRAIN_TEST_SPLIT cfg) = Ok p ->
      finite p = true -> BATCH_SIZE cfg <> 0 ->
      returns (train_split cfg n))
  /\ (forall sp : split,
        train_split cfg n = Ok sp ->
        (exists p : spec_float,
            mul_int_float n (TRAIN_TEST_SPLIT cfg) = Ok p
            /\ int_of_float p = Ok (total_train sp)
            /\ (nonneg (TRAIN_TEST_SPLIT cfg) = true ->
                float_floor p = Some (total_train sp)))
        /\ total_val sp = n - total_train sp
        /\ total_train sp + total_val sp = n
        /\ steps_per_epoch sp = total_train sp / BATCH_SIZE cfg
        /\ (nonneg (TRAIN_TEST_SPLIT cfg) = true ->
            total_train sp < BATCH_SIZE cfg -> steps_per_epoch sp = 0)).
Proof.
  intros Hn. split.
  - intros p Hp Hfin Hb. unfold train_split. rewrite Hp. simpl.
    destruct (int_of_float_finite p Hfin) as [z ->]. simpl.
    unfold floordiv. apply Z.eqb_neq in Hb. rewrite Hb. simpl.
    unfold returns. eauto.
  - intros sp. unfold train_split.
    destruct (mul_int_float n (TRAIN_TEST_SPLIT cfg)) as [p |] eqn:Hp;
      simpl; [| discriminate].
    destruct (int_of_float p) as [tt |] eqn:Hi; simpl; [| discriminate].
    unfold floordiv.
    destruct (BATCH_SIZE cfg =? 0) eqn:Hb; simpl; [discriminate |].
    intros [= <-]. simpl.
    assert (Hfin : finite p = true)
      by (destruct p; simpl in *; congruence).
    assert (Hnn : nonneg (TRAIN_TEST_SPLIT cfg) = true ->
                  float_floor p = Some tt /\ 0 <= tt).
    { intros Hx.
      exact (int_of_float_floor p tt
               (mul_int_float_sign n _ p Hn Hx Hp Hfin) Hi). }
    split; [| split; [| split; [| split]]].
    + exists p. split; [reflexivity |]. split; [exact Hi |].
      intros Hx. apply (Hnn Hx).
    + reflexivity.
    + lia.
    + reflexivity.
    + intros Hx Hlt. destruct (Hnn Hx) as [_ Hpos].
      apply Z.div_small. lia.
Qed.

Lemma train_split_counts_witness :
  train_split Demo.cfg 1000
  = Ok {| total_train := 800; total_val := 200; steps_per_epoch := 6 |}
  /\ (forall sp : split,
        train_split Demo.cfg 100 = Ok sp ->
        (exists p : spec_float,
            mul_int_float 100 (TRAIN_TEST_SPLIT Demo.cfg) = Ok p
            /\ int_of_float p = Ok (total_train sp)
            /\ (nonneg (TRAIN_TEST_SPLIT Demo.cfg) = true ->
                float_floor p = Some (total_train sp)))
        /\ total_val sp = 100 - total_train sp
        /\ total_train sp + total_val sp = 100
        /\ steps_per_epoch sp = total_train sp / BATCH_SIZE Demo.cfg
        /\ (nonneg (TRAIN_TEST_SPLIT Demo.cfg) = true ->
            total_train sp < BATCH_SIZE Demo.cfg -> steps_per_epoch sp = 0)).
Proof.
  split.
  - vm_compute. reflexivity.
  - apply (proj2 (train_split_counts Demo.cfg 100 ltac:(lia))).
Defined.

(** C10, as the claim states it, fails for a negative split: with
    [cfg.TRAIN_TEST_SPLIT = -0.5] and 3 records the product is [-1.5];
    [int()] truncates it to [-1] where the floor is [-2], and
    [steps_per_epoch] is [-1], not 0, although [total_train] is below the
    batch size. *)
Lemma train_split_counts_counterexample :
  exists (sp : split) (p : spec_float),
    train_split cfg_negative_split 3 = Ok sp
    /\ mul_int_float 3 (TRAIN_TEST_SPLIT cfg_negative_split) = Ok p
    /\ float_floor p = Some (-2)
    /\ total_train sp = -1
    /\ float_floor p <> Some (total_train sp)
    /\ total_train sp < BATCH_SIZE cfg_negative_split
    /\ steps_per_epoch sp = -1
    /\ steps_per_epoch sp <> 0.
Proof.
  eexists. eexists.
  split; [vm_compute; reflexivity |].
  split; [vm_compute; reflexivity |].
  repeat split; try reflexivity; vm_compute; discriminate.
Qed.

(* ===================================================================== *)
(** ** One tick of the assembled vehicle *)
(* ===================================================================== *)

Lemma bus_get_insert (b : gmap string value) (k k' : string) (v : value) :
  bus_get (<[k := v]> b) k' = if String.eqb k k' then v else bus_get b k'.
Proof.
  unfold bus_get. rewrite lookup_insert.
  destruct (String.eqb_spec k k') as [-> | Hne].
  - rewrite decide_True by done. done.
  - rewrite decide_False by done. done.
Qed.

Lemma lookup_insert_str (b : gmap string value) (k k' : string) (v : value) :
  <[k := v]> b !! k' = if String.eqb k k' then Some v else b !! k'.
Proof.
  rewrite lookup_insert.
  destruct (String.eqb_spec k k') as [-> | Hne].
  - rewrite decide_True by done. done.
  - rewrite decide_False by done. done.
Qed.

Lemma invoke_controller {W : Type} (ext : collaborators W) (cfg : config)
      (js ch : value) (w : W) (img : value) :
  exists w' ua ut m r,
    invoke ext (controller cfg js ch) w [img] = Ok (w', [ua; ut; m; r]).
Proof.
  unfold controller.
  destruct (truthy js); simpl;
    destruct (controller_poll ext _ w img) as [w' [[[ua ut] m] r]];
    eauto 6.
Qed.

Lemma ret_values_pilot_condition (m : value) :
  ret_values (pilot_condition m) = [pilot_condition m].
Proof. unfold pilot_condition. destruct (eq_str m "user"); reflexivity. Qed.

(** Reads of a Bus that is written out reduce to the value last written. *)
Ltac bus_norm :=
  repeat (first [rewrite bus_get_insert | rewrite lookup_insert_str];
          simpl (String.eqb _ _); cbv iota).

(** Unfolds the scheduler as far as the data allows. *)
Ltac tick_simpl :=
  repeat (progress (cbn; try unfold step_unit, run_condition_value; cbn;
                    bus_norm;
                    rewrite ?ret_values_pilot_condition,
                            ?truthy_pilot_condition)).

(** Runs one tick of the vehicle assembled by [drive] on symbolic inputs:
    one goal for the pilot skipped or run, times the tub skipped or run,
    each with the final state written out. *)
Ltac exec_tick ext :=
  unfold tick; tick_simpl;
  destruct (clock_run ext _) as [?w ?t]; tick_simpl;
  destruct (camera_poll ext _) as [?w ?img]; tick_simpl;
  match goal with
  | |- context [invoke ext (controller ?cfg ?js ?ch) ?w [?img]] =>
      let w' := fresh "w" in
      let ua := fresh "ua" in let ut := fresh "ut" in
      let m := fresh "mode" in let r := fresh "rec" in
      destruct (invoke_controller ext cfg js ch w img)
        as (w' & ua & ut & m & r & ->)
  end;
  tick_simpl;
  match goal with
  | |- context [eq_str ?m "user"] =>
      let Hmode := fresh "Hmode" in
      destruct (eq_str m "user") eqn:Hmode
  end;
  tick_simpl;
  try (destruct (pilot_run ext _ _ _ _) as [?w [?pa ?pt]]; tick_simpl);
  match goal with
  | |- context [drive_mode ?m ?ua ?ut ?pa ?pt] =>
      let da := fresh "da" in let dt := fresh "dt" in
      let Hdm := fresh "Hdm" in
      destruct (drive_mode m ua ut pa pt) as [da dt] eqn:Hdm
  end;
  tick_simpl;
  match goal with
  | |- context [truthy ?r] =>
      let Hrec := fresh "Hrec" in
      destruct (truthy r) eqn:Hrec
  end;
  tick_simpl.

(** The tick of the assembled vehicle never fails. *)
Lemma drive_tick_returns {W : Type} (ext : collaborators W) (cfg : config)
      (mp mt js ch : value) (a : assembled) (w : W) (b : gmap string value) :
  drive_assemble cfg mp mt js ch = Ok a ->
  returns (tick ext (a_vehicle a) w b).
Proof.
  intros H. apply drive_assemble_inv in H as (kl & loaded & _ & _ & _ & ->).
  unfold returns. exec_tick ext; eauto.
Qed.

(** C1.  [pilot_condition mode] is [False] if and only if [mode] is the
    string ['user'] and [True] for every other value; the pilot is
    registered with the run condition ['run_pilot'], the output of the
    [pilot_condition] unit fed with ['user/mode']; and in every tick the
    pilot is invoked exactly when the mode on the Bus is not ['user'], and
    skipped exactly when it is. *)
Theorem pilot_runs_unless_user {W : Type} (ext : collaborators W)
        (cfg : config) (mp mt js ch : value) (a : assembled)
        (w : W) (b : gmap string value) :
  drive_assemble cfg mp mt js ch = Ok a ->
  (forall mode : value,
      (pilot_condition mode = VBool false <-> mode = VStr "user")
      /\ (pilot_condition mode = VBool true <-> mode <> VStr "user"))
  /\ (exists e3 e4 : entry,
        a_vehicle a !! 3%nat = Some e3 /\ a_vehicle a !! 4%nat = Some e4
        /\ e_part e3 = Lambda pilot_condition_fn
        /\ e_inputs e3 = ["user/mode"] /\ e_outputs e3 = ["run_pilot"]
        /\ e_run_condition e3 = None
        /\ (exists kl loaded, e_part e4 = Pilot kl loaded)
        /\ e_run_condition e4 = Some "run_pilot")
  /\ (exists s : state W,
        tick ext (a_vehicle a) w b = Ok s
        /\ bus_get (bus s) "run_pilot"
           = pilot_condition (bus_get (bus s) "user/mode")
        /\ (invoked 4 (log s) = true <-> bus_get (bus s) "user/mode" <> VStr "user")
        /\ (skipped 4 (log s) = true <-> bus_get (bus s) "user/mode" = VStr "user")).
Proof.
  intros H. apply drive_assemble_inv in H as (kl & loaded & _ & _ & _ & ->).
  split; [| split].
  - intros mode. split.
    + apply pilot_condition_false_iff.
    + apply pilot_condition_true_iff.
  - do 2 eexists. repeat split; eauto.
  - exec_tick ext; eexists; (split; [reflexivity |]); cbn; bus_norm;
      rewrite <- eq_str_false, <- eq_str_true, Hmode; intuition congruence.
Qed.

Lemma pilot_runs_unless_user_witness :
  exists s : state nat,
    tick (Demo.ext "user" false) Demo.car 0%nat ∅ = Ok s
    /\ bus_get (bus s) "run_pilot"
       = pilot_condition (bus_get (bus s) "user/mode")
    /\ (invoked 4 (log s) = true <-> bus_get (bus s) "user/mode" <> VStr "user")
    /\ (skipped 4 (log s) = true <-> bus_get (bus s) "user/mode" = VStr "user").
Proof.
  apply (proj2 (proj2 (pilot_runs_unless_user (Demo.ext "user" false) Demo.cfg
                         VNone (VStr "linear") (VBool false) (VBool false)
                         _ 0%nat ∅ eq_refl))).
Defined.

(* ===================================================================== *)
(** ** Wiring of the assembled vehicle *)
(* ===================================================================== *)

Lemma wired_sound (seen : list string) (us : list entry) :
  wired seen us = true ->
  forall (i : nat) (e : entry) (k : string),
    us !! i = Some e -> k ∈ reads e ->
    k ∈ seen \/ exists (j : nat) (e' : entry),
                  (j < i)%nat /\ us !! j = Some e' /\ k ∈ e_outputs e'.
Proof.
  revert seen. induction us as [| e0 us IH]; intros seen Hw i e k Hi Hk.
  - discriminate Hi.
  - simpl in Hw. apply andb_true_iff in Hw as [Hhere Hrest].
    destruct i as [| i]; simpl in Hi.
    + injection Hi as <-. left.
      rewrite forallb_forall in Hhere.
      apply list_elem_of_In in Hk. apply Hhere in Hk.
      apply bool_decide_eq_true in Hk. exact Hk.
    + destruct (IH _ Hrest i e k Hi Hk) as [Hin | (j & e' & Hj & He' & Hout)].
      * apply elem_of_app in Hin as [Hin | Hin]; [left; exact Hin |].
        right. exists 0%nat, e0. repeat split; [lia | exact Hin].
      * right. exists (S j), e'. repeat split; [lia | exact He' | exact Hout].
Qed.

Lemma wired_fed (V : vehicle) : wired [] V = true -> fed_from_upstream V.
Proof.
  intros Hw i e k Hi Hk.
  destruct (wired_sound [] V Hw i e k Hi Hk) as [Hin | H]; [| exact H].
  inversion Hin.
Qed.

(** C2, as the code has it.  In the sequence [drive] assembles, every input
    key and every run-condition key of a unit is an output key of a unit
    registered strictly earlier.  In a tick every invoked unit reads keys
    written earlier in that tick, with one exception: when the mode is
    ['user'] the pilot is skipped and [drive_mode] reads ['pilot/angle']
    and ['pilot/throttle'] as they were before the tick. *)
Theorem inputs_fed_same_tick {W : Type} (ext : collaborators W)
        (cfg : config) (mp mt js ch : value) (a : assembled)
        (w : W) (b : gmap string value) :
  drive_assemble cfg mp mt js ch = Ok a ->
  fed_from_upstream (a_vehicle a)
  /\ exists s : state W,
       tick ext (a_vehicle a) w b = Ok s
       /\ stale (a_vehicle a) [] (log s)
          = (if eq_str (bus_get (bus s) "user/mode") "user"
             then [(5%nat, "pilot/angle"); (5%nat, "pilot/throttle")]
             else [])
       /\ (eq_str (bus_get (bus s) "user/mode") "user" = true ->
           bus s !! "pilot/angle" = b !! "pilot/angle"
           /\ bus s !! "pilot/throttle" = b !! "pilot/throttle").
Proof.
  intros H. apply drive_assemble_inv in H as (kl & loaded & _ & _ & _ & ->).
  split.
  - apply wired_fed. vm_compute. reflexivity.
  - exec_tick ext; eexists; (split; [reflexivity |]); cbn [bus log];
      bus_norm; rewrite Hmode; (split; [vm_compute; reflexivity |]);
      intros Hu; try discriminate Hu; split; reflexivity.
Qed.

Lemma inputs_fed_same_tick_witness :
  fed_from_upstream Demo.car
  /\ exists s : state nat,
       tick (Demo.ext "local" false) Demo.car 0%nat ∅ = Ok s
       /\ stale Demo.car [] (log s)
          = (if eq_str (bus_get (bus s) "user/mode") "user"
             then [(5%nat, "pilot/angle"); (5%nat, "pilot/throttle")]
             else [])
       /\ (eq_str (bus_get (bus s) "user/mode") "user" = true ->
           bus s !! "pilot/angle" = (∅ : gmap string value) !! "pilot/angle"
           /\ bus s !! "pilot/throttle"
              = (∅ : gmap string value) !! "pilot/throttle").
Proof.
  apply (inputs_fed_same_tick (Demo.ext "local" false) Demo.cfg
           VNone (VStr "linear") (VBool false) (VBool false)
           _ 0%nat ∅ eq_refl).
Defined.

(** C2, as the claim states it, fails: with the controller in mode
    ['user'], [drive_mode] (position 5) is invoked on two keys that no unit
    has written in that tick. *)
Lemma inputs_fed_same_tick_counterexample :
  exists s : state nat,
    tick (Demo.ext "user" false) Demo.car 0%nat ∅ = Ok s
    /\ invoked 5 (log s) = true
    /\ stale Demo.car [] (log s)
       = [(5%nat, "pilot/angle"); (5%nat, "pilot/throttle")]
    /\ stale Demo.car [] (log s) <> [].
Proof.
  eexists. split; [vm_compute; reflexivity |].
  split; [reflexivity |]. split; [vm_compute; reflexivity |].
  vm_compute. discriminate.
Qed.

(* ===================================================================== *)
(** ** Gated units *)
(* ===================================================================== *)

(** C3.  [drive] registers two units with a run-condition key: the pilot
    at position 4 on ['run_pilot'], with the outputs ['pilot/angle'] and
    ['pilot/throttle'], and the TubWriter at position 8 on ['recording'],
    with no outputs; no other unit has one.  In every tick such a unit is
    skipped exactly when the Bus value at its key is false; a skipped unit
    is not invoked, and the Bus holds at each of its output keys after the
    tick what it held before the tick. *)
Theorem skipped_unit_keeps_outputs {W : Type} (ext : collaborators W)
        (cfg : config) (mp mt js ch : value) (a : assembled)
        (w : W) (b : gmap string value) :
  drive_assemble cfg mp mt js ch = Ok a ->
  (exists (e4 e8 : entry) (kl : pilot) (loaded : option value),
      a_vehicle a !! 4%nat = Some e4
      /\ e_part e4 = Pilot kl loaded
      /\ e_run_condition e4 = Some "run_pilot"
      /\ e_outputs e4 = ["pilot/angle"; "pilot/throttle"]
      /\ a_vehicle a !! 8%nat = Some e8
      /\ e_part e8 = TubWriter (TUB_PATH cfg) tub_inputs tub_types
      /\ e_run_condition e8 = Some "recording"
      /\ e_outputs e8 = [])
  /\ (forall (i : nat) (e : entry) (k : string),
        a_vehicle a !! i = Some e -> e_run_condition e = Some k ->
        (i = 4%nat /\ k = "run_pilot"
         /\ exists kl loaded, e_part e = Pilot kl loaded)
        \/ (i = 8%nat /\ k = "recording"
            /\ e_part e = TubWriter (TUB_PATH cfg) tub_inputs tub_types))
  /\ exists s : state W,
       tick ext (a_vehicle a) w b = Ok s
       /\ (forall (i : nat) (e : entry) (k : string),
             a_vehicle a !! i = Some e -> e_run_condition e = Some k ->
             skipped i (log s) = negb (truthy (bus_get (bus s) k))
             /\ invoked i (log s) = negb (skipped i (log s))
             /\ (skipped i (log s) = true ->
                 forall o : string, o ∈ e_outputs e -> bus s !! o = b !! o))
       /\ skipped 4 (log s) = negb (truthy (bus_get (bus s) "run_pilot"))
       /\ skipped 8 (log s) = negb (truthy (bus_get (bus s) "recording"))
       /\ (truthy (bus_get (bus s) "run_pilot") = false ->
           skipped 4 (log s) = true
           /\ invoked 4 (log s) = false
           /\ bus s !! "pilot/angle" = b !! "pilot/angle"
           /\ bus s !! "pilot/throttle" = b !! "pilot/throttle")
       /\ (truthy (bus_get (bus s) "recording") = false ->
           skipped 8 (log s) = true /\ invoked 8 (log s) = false)
       /\ (truthy (bus_get (bus s) "run_pilot") = true ->
           skipped 4 (log s) = false /\ invoked 4 (log s) = true)
       /\ (truthy (bus_get (bus s) "recording") = true ->
           skipped 8 (log s) = false /\ invoked 8 (log s) = true).
Proof.
  intros H. apply drive_assemble_inv in H as (kl & loaded & _ & _ & _ & ->).
  split; [| split].
  - do 4 eexists. repeat split.
  - intros i e k Hi Hk.
    each_position Hi; simpl in Hk; try discriminate Hk; injection Hk as <-.
    + left. eauto.
    + right. auto.
  - exec_tick ext; eexists; (split; [reflexivity |]); split.
    all: try (intros i e k Hi Hk;
      each_position Hi; simpl in Hk; try discriminate Hk;
      injection Hk as <-; cbn; bus_norm;
      rewrite ?truthy_pilot_condition, ?Hmode, ?Hrec;
      (split; [reflexivity |]); (split; [reflexivity |]);
      intros Hs; try discriminate Hs; intros o Ho;
      repeat (apply elem_of_cons in Ho as [-> | Ho];
              [bus_norm; reflexivity |]);
      inversion Ho).
    all: cbn; bus_norm; rewrite ?truthy_pilot_condition, ?Hmode, ?Hrec; cbn.
    all: repeat match goal with
                | |- _ /\ _ => split
                | |- _ -> _ => let Hc := fresh "Hc" in
                               intros Hc; try discriminate Hc
                end.
    all: bus_norm; reflexivity.
Qed.

Lemma skipped_unit_keeps_outputs_witness :
  exists s : state nat,
    tick (Demo.ext "user" false) Demo.car 0%nat {["pilot/angle" := VInt 7]} = Ok s
    /\ truthy (bus_get (bus s) "run_pilot") = false
    /\ skipped 4 (log s) = true
    /\ invoked 4 (log s) = false
    /\ bus s !! "pilot/angle" = Some (VInt 7)
    /\ bus s !! "pilot/throttle" = None
    /\ truthy (bus_get (bus s) "recording") = false
    /\ skipped 8 (log s) = true
    /\ invoked 8 (log s) = false.
Proof.
  destruct (skipped_unit_keeps_outputs (Demo.ext "user" false) Demo.cfg
              VNone (VStr "linear") (VBool false) (VBool false)
              _ 0%nat {["pilot/angle" := VInt 7]} eq_refl)
    as (_ & _ & s & Hs & _ & _ & _ & Hpilot & Htub & _).
  exists s. split; [exact Hs |].
  assert (Hrun : truthy (bus_get (bus s) "run_pilot") = false
                 /\ truthy (bus_get (bus s) "recording") = false).
  { vm_compute in Hs. injection Hs as <-. split; reflexivity. }
  destruct Hrun as [Hp Hr].
  destruct (Hpilot Hp) as (H1 & H2 & H3 & H4).
  destruct (Htub Hr) as (H5 & H6).
  repeat split; try assumption.
Defined.

(** C6.  The TubWriter is the last unit [drive] registers: gated by
    ['recording'], an output key of the input controller registered
    earlier; its inputs are the five keys ['cam/image_array'],
    ['user/angle'], ['user/throttle'], ['user/mode'], ['timestamp'], as
    many as its types; it has no output keys, and its turn in a tick,
    which always returns, leaves the Bus as it was. *)
Theorem tub_writer_registration {W : Type} (ext : collaborators W)
        (cfg : config) (mp mt js ch : value) (a : assembled) :
  drive_assemble cfg mp mt js ch = Ok a ->
  List.length (a_vehicle a) = 9%nat
  /\ exists e2 e8 : entry,
       a_vehicle a !! 2%nat = Some e2 /\ a_vehicle a !! 8%nat = Some e8
       /\ e_part e2 = controller cfg js ch
       /\ "recording" ∈ e_outputs e2
       /\ e_part e8 = TubWriter (TUB_PATH cfg) tub_inputs tub_types
       /\ e_run_condition e8 = Some "recording"
       /\ e_inputs e8 = ["cam/image_array"; "user/angle"; "user/throttle";
                         "user/mode"; "timestamp"]
       /\ tub_inputs = e_inputs e8
       /\ List.length tub_types = List.length tub_inputs
       /\ e_outputs e8 = []
       /\ (forall s : state W,
             exists s' : state W,
               step_unit ext 8 e8 s = Ok s' /\ bus s' = bus s
               /\ (truthy (bus_get (bus s) "recording") = true ->
                   world s' = tub_run ext (world s) (get_many (bus s) tub_inputs)
                   /\ invoked 8 (log s') = true)).
Proof.
  intros H. apply drive_assemble_inv in H as (kl & loaded & _ & _ & _ & ->).
  split; [reflexivity |].
  do 2 eexists. repeat split; try reflexivity.
  - set_solver.
  - intros s. unfold step_unit, run_condition_value. cbn.
    destruct (truthy (bus_get (bus s) "recording")) eqn:Hrec; cbn.
    + eexists. split; [reflexivity |]. split; [reflexivity |].
      intros _. split; [reflexivity |].
      unfold invoked. cbn [log]. rewrite existsb_app. cbn. apply orb_true_r.
    + eexists. split; [reflexivity |]. split; [reflexivity |].
      intros Hc. discriminate Hc.
Qed.

Lemma tub_writer_registration_witness :
  List.length Demo.car = 9%nat.
Proof.
  apply (proj1 (tub_writer_registration (Demo.ext "user" true) Demo.cfg
                  VNone (VStr "linear") (VBool false) (VBool false)
                  _ eq_refl)).
Defined.

(* ===================================================================== *)
(** ** The loop from start to stop *)
(* ===================================================================== *)

Section Lifecycle.

Context {W : Type} (ext : collaborators W).

Lemma stop_threads_below (us : list entry) (i : nat) (w : W)
      (th : gmap nat thread) (j : nat) :
  (j < i)%nat -> (stop_threads ext i us w th).2 !! j = th !! j.
Proof.
  revert i w th. induction us as [| e us IH]; intros i w th Hj; simpl.
  - reflexivity.
  - destruct (e_threaded e).
    + rewrite IH by lia. apply lookup_insert_ne. lia.
    + apply IH. lia.
Qed.

Lemma stop_threads_joined (us : list entry) (i : nat) (w : W)
      (th : gmap nat thread) (j : nat) :
  j ∈ threaded_from i us ->
  (stop_threads ext i us w th).2 !! j = Some Joined.
Proof.
  revert i w th. induction us as [| e us IH]; intros i w th Hj; simpl in *.
  - inversion Hj.
  - destruct (e_threaded e).
    + apply elem_of_cons in Hj as [-> | Hj].
      * rewrite stop_threads_below by lia. apply lookup_insert_eq.
      * apply IH. exact Hj.
    + apply IH. exact Hj.
Qed.

Variable V : vehicle.

Hypothesis tick_returns : forall w b, returns (tick ext V w b).

(** A loop whose ticks all return never records a failure. *)
Lemma no_failure (max_loop_count : option nat) (w : W) (fuel : nat) :
  l_failure (run_loop ext V max_loop_count w fuel) = None.
Proof.
  unfold run_loop. induction fuel as [| fuel IH]; [reflexivity |].
  rewrite Nat.iter_succ.
  remember (Nat.iter fuel _ (loop_init w)) as l eqn:El. clear El.
  unfold lifecycle_step.
  destruct (l_phase l); simpl.
  - destruct (start_threads ext 0 V (l_bus l) (l_world l) (l_threads l)).
    exact IH.
  - destruct (reached max_loop_count (l_ticks l)); [exact IH |].
    destruct (tick_returns (l_world l) (l_bus l)) as [s ->]. exact IH.
  - destruct (stop_threads ext 0 V (l_world l) (l_threads l)). exact IH.
  - exact IH.
Qed.

Lemma V_start_returns (rate_hz : value) (max_loop_count : option nat)
      (w : W) (fuel : nat) :
  V_start ext V rate_hz max_loop_count w fuel
  = Ok (match l_phase (run_loop ext V max_loop_count w fuel) with
        | Stopped => Returned (run_loop ext V max_loop_count w fuel)
        | _ => Unfinished (run_loop ext V max_loop_count w fuel)
        end).
Proof.
  unfold V_start. rewrite no_failure.
  destruct (l_phase _); reflexivity.
Qed.

Variable N : nat.

Local Abbreviation run := (run_loop ext V (Some N)).

(** After the start transition and [k <= N] further transitions the loop
    is running and has executed [k] ticks. *)
Lemma running_after (w : W) (k : nat) :
  (k <= N)%nat ->
  l_phase (run w (S k)) = Running /\ l_ticks (run w (S k)) = k.
Proof.
  unfold run_loop. induction k as [| k IH]; intros Hk.
  - simpl. unfold lifecycle_step. simpl.
    destruct (start_threads ext 0 V ∅ w ∅). simpl. auto.
  - assert (Hk' : (k <= N)%nat) by lia.
    destruct (IH Hk') as (Hp & Ht).
    rewrite Nat.iter_succ.
    remember (Nat.iter (S k) _ (loop_init w)) as l eqn:El. clear El.
    unfold lifecycle_step. rewrite Hp, Ht. simpl.
    destruct (Nat.leb_spec N k) as [Hle | Hgt]; [lia |].
    destruct (tick_returns (l_world l) (l_bus l)) as [s ->].
    simpl. auto.
Qed.

Lemma stopping_after (w : W) :
  l_phase (run w (N + 2)) = Stopping /\ l_ticks (run w (N + 2)) = N.
Proof.
  replace (N + 2)%nat with (S (S N)) by lia.
  destruct (running_after w N (le_n N)) as (Hp & Ht).
  unfold run_loop in *. rewrite Nat.iter_succ.
  remember (Nat.iter (S N) _ (loop_init w)) as l eqn:El. clear El.
  unfold lifecycle_step. rewrite Hp, Ht. simpl.
  rewrite Nat.leb_refl. simpl. auto.
Qed.

Lemma stopped_after (w : W) (extra : nat) :
  l_phase (run w (N + 3 + extra)) = Stopped
  /\ l_ticks (run w (N + 3 + extra)) = N
  /\ forall j, j ∈ threaded_from 0 V ->
               l_threads (run w (N + 3 + extra)) !! j = Some Joined.
Proof.
  induction extra as [| extra IH].
  - replace (N + 3 + 0)%nat with (S (N + 2)) by lia.
    destruct (stopping_after w) as (Hp & Ht).
    unfold run_loop in *. rewrite Nat.iter_succ.
    remember (Nat.iter (N + 2) _ (loop_init w)) as l eqn:El. clear El.
    unfold lifecycle_step. rewrite Hp.
    pose proof (stop_threads_joined V 0 (l_world l) (l_threads l)) as Hj.
    destruct (stop_threads ext 0 V (l_world l) (l_threads l)) as [w' th].
    simpl in *. auto.
  - replace (N + 3 + S extra)%nat with (S (N + 3 + extra)) by lia.
    destruct IH as (Hp & Ht & Hj).
    unfold run_loop in *. rewrite Nat.iter_succ.
    remember (Nat.iter (N + 3 + extra) _ (loop_init w)) as l eqn:El. clear El.
    unfold lifecycle_step. rewrite Hp. auto.
Qed.

End Lifecycle.

(** C7.  [drive] passes [cfg.MAX_LOOPS] as [max_loop_count] and registers
    two threaded units, the camera and the input controller.  With
    [cfg.MAX_LOOPS = N], [V.start] has not returned while the loop is
    running, which it is with [k] ticks executed after the start and
    [k <= N] further transitions; it returns after tick [N], having
    executed exactly [N] ticks, without failure, with the camera's and the
    controller's threads joined. *)
Theorem start_runs_max_loops {W : Type} (ext : collaborators W)
        (cfg : config) (mp mt js ch : value) (a : assembled)
        (N : nat) (w : W) (fuel : nat) :
  drive_assemble cfg mp mt js ch = Ok a ->
  MAX_LOOPS cfg = Some N ->
  (N + 3 <= fuel)%nat ->
  a_max_loop_count a = Some N
  /\ threaded_from 0 (a_vehicle a) = [1%nat; 2%nat]
  /\ (exists e1 e2, a_vehicle a !! 1%nat = Some e1 /\ a_vehicle a !! 2%nat = Some e2
                    /\ e_part e1 = RealSenseCamera
                    /\ e_part e2 = controller cfg js ch)
  /\ (forall k : nat,
        (k <= N)%nat ->
        exists l : loop W,
          V_start ext (a_vehicle a) (a_rate_hz a) (a_max_loop_count a) w (S k)
          = Ok (Unfinished l)
          /\ l_phase l = Running /\ l_ticks l = k)
  /\ exists l : loop W,
       drive ext cfg (Some mp) (Some mt) (Some js) (Some ch) w fuel
       = Ok (Returned l)
       /\ V_start ext (a_vehicle a) (a_rate_hz a) (a_max_loop_count a) w fuel
          = Ok (Returned l)
       /\ l_phase l = Stopped
       /\ l_ticks l = N
       /\ l_failure l = None
       /\ l_threads l !! 1%nat = Some Joined
       /\ l_threads l !! 2%nat = Some Joined.
Proof.
  intros Ha HN Hfuel.
  assert (Htick : forall w b, returns (tick ext (a_vehicle a) w b))
    by (intros; eapply drive_tick_returns; exact Ha).
  assert (Hth : threaded_from 0 (a_vehicle a) = [1%nat; 2%nat]).
  { apply drive_assemble_inv in Ha as (kl & loaded & _ & _ & _ & ->).
    reflexivity. }
  assert (Hmax : a_max_loop_count a = Some N).
  { apply drive_assemble_inv in Ha as (kl & loaded & _ & -> & _ & _).
    exact HN. }
  split; [exact Hmax |]. split; [exact Hth |]. split; [| split].
  - apply drive_assemble_inv in Ha as (kl & loaded & _ & _ & _ & ->).
    do 2 eexists. repeat split.
  - intros k Hk. rewrite (V_start_returns ext _ Htick), Hmax.
    destruct (running_after ext (a_vehicle a) Htick N w k Hk) as (Hp & Ht).
    rewrite Hp. eexists. split; [reflexivity |]. split; assumption.
  - assert (Hfuel' : fuel = (N + 3 + (fuel - (N + 3)))%nat) by lia.
    destruct (stopped_after ext (a_vehicle a) Htick N w (fuel - (N + 3)))
      as (Hp & Ht & Hj).
    rewrite <- Hfuel' in Hp, Ht, Hj.
    unfold drive. simpl. rewrite Ha. simpl.
    rewrite (V_start_returns ext _ Htick), Hmax, Hp.
    eexists. split; [reflexivity |]. split; [reflexivity |].
    split; [exact Hp |]. split; [exact Ht |].
    split; [apply (no_failure ext _ Htick) |].
    split; apply Hj; rewrite Hth; set_solver.
Qed.

Lemma start_runs_max_loops_witness :
  exists l : loop nat,
    drive (Demo.ext "user" false) Demo.cfg (Some VNone) (Some (VStr "linear"))
          (Some (VBool false)) (Some (VBool false)) 0%nat 6 = Ok (Returned l)
    /\ l_phase l = Stopped
    /\ l_ticks l = 3%nat
    /\ l_failure l = None
    /\ l_threads l !! 1%nat = Some Joined
    /\ l_threads l !! 2%nat = Some Joined.
Proof.
  destruct (start_runs_max_loops (Demo.ext "user" false) Demo.cfg
              VNone (VStr "linear") (VBool false) (VBool false)
              _ 3%nat 0%nat 6%nat eq_refl eq_refl ltac:(lia))
    as (_ & _ & _ & _ & l & Hd & _ & Hrest).
  exists l. split; [exact Hd | exact Hrest].
Defined.

(* ===================================================================== *)
(** ** The command line *)
(* ===================================================================== *)

(** C9.  [get_model] returns a model exactly for ['linear'],
    ['linear-dropout'], ['linear-cropped-dropout'] and ['rnn'] and raises
    [ValueError] for every other value, [None] included; [__main__] hands
    [args['--type']] to [drive] and [train] as an explicit argument, so
    either command without [--type] raises [ValueError], although a call
    that omits [model_type] takes ['linear-dropout'] and gets a model. *)
Theorem get_model_cli {W : Type} (ext : collaborators W) (cfg : config) :
  (forall model_type : value,
      (returns (get_model model_type) <-> known_model_type model_type)
      /\ (~ known_model_type model_type <->
          get_model model_type = Raise (ValueError "Unknown model type")))
  /\ get_model VNone = Raise (ValueError "Unknown model type")
  /\ (forall model js chaos type w fuel,
        main ext cfg (CmdDrive model js chaos type) w fuel
        = let* r := drive ext cfg (Some (opt model)) (Some (opt type))
                          (Some (VBool js)) (Some (VBool chaos)) w fuel in
          Ok (Drove r))
  /\ (forall tub model type base_model no_cache w fuel,
        main ext cfg (CmdTrain tub model type base_model no_cache) w fuel
        = let* t := train ext cfg (opt tub) (VStr model)
                          (Some (opt type)) (Some (opt base_model)) in
          Ok (Trained t))
  /\ (forall model js chaos w fuel,
        main ext cfg (CmdDrive model js chaos None) w fuel
        = Raise (ValueError "Unknown model type"))
  /\ (forall tub model base_model no_cache w fuel,
        main ext cfg (CmdTrain tub model None base_model no_cache) w fuel
        = Raise (ValueError "Unknown model type"))
  /\ (forall model_path use_joystick use_chaos w fuel,
        returns (drive ext cfg model_path None use_joystick use_chaos w fuel))
  /\ get_model (VStr "linear-dropout") = Ok (KerasLinear linear_dropout).
Proof.
  split; [| repeat split].
  - intros mt. destruct (get_model_cases mt) as [[Hk Hr] | [Hk Hr]].
    + repeat split; try tauto.
      intros He. destruct Hr as [kl Hr]. congruence.
    + repeat split; try tauto.
      intros [kl Hkl]. congruence.
  - intros. unfold drive. cbv zeta.
    destruct (drive_assemble cfg (default VNone model_path)
                (default (VStr "linear-dropout") None)
                (default (VBool false) use_joystick)
                (default (VBool false) use_chaos)) as [a |] eqn:Ha;
      [| discriminate Ha].
    simpl. rewrite V_start_returns.
    + unfold returns. eauto.
    + intros. eapply drive_tick_returns. exact Ha.
Qed.

(* ===================================================================== *)
(** ** Further properties of the closures and of [get_model] *)
(* ===================================================================== *)

(** X1.  [drive_mode] only selects: the angle it returns is the user's or
    the pilot's, the throttle is the user's or the pilot's, and in no mode
    does it pair the user's angle with the pilot's throttle. *)
Theorem drive_mode_selects (mode ua ut pa pt : value) :
  let r := drive_mode mode ua ut pa pt in
  (r = (ua, ut) \/ r = (pa, ut) \/ r = (pa, pt))
  /\ (fst r = ua \/ fst r = pa)
  /\ (snd r = ut \/ snd r = pt)
  /\ (fst r = pa \/ snd r = ut).
Proof.
  unfold drive_mode.
  destruct (eq_str mode "user"); [simpl; auto 6 |].
  destruct (eq_str mode "local_angle"); simpl; auto 6.
Qed.

(** X2.  The two closures agree on when the pilot matters:
    [pilot_condition mode] is [True] exactly when [drive_mode] steers by
    the pilot's angle for all inputs, and [False] exactly when
    [drive_mode] returns the user's pair for all inputs. *)
Theorem pilot_run_iff_used (mode : value) :
  (pilot_condition mode = VBool true <->
   forall ua ut pa pt : value, fst (drive_mode mode ua ut pa pt) = pa)
  /\ (pilot_condition mode = VBool false <->
      forall ua ut pa pt : value, drive_mode mode ua ut pa pt = (ua, ut)).
Proof.
  unfold pilot_condition, drive_mode.
  destruct (eq_str mode "user").
  - split; split; try discriminate; try reflexivity.
    intros H. specialize (H (VInt 0) (VInt 0) (VInt 1) (VInt 1)).
    discriminate H.
  - split; split; try discriminate; try reflexivity.
    + intros _ ua ut pa pt.
      destruct (eq_str mode "local_angle"); reflexivity.
    + intros H. specialize (H (VInt 0) (VInt 0) (VInt 1) (VInt 1)).
      destruct (eq_str mode "local_angle"); discriminate H.
Qed.

Lemma get_model_inv (model_type : value) (kl : pilot) :
  get_model model_type = Ok kl ->
  (model_type = VStr "linear" /\ kl = KerasLinear default_linear)
  \/ (model_type = VStr "linear-dropout" /\ kl = KerasLinear linear_dropout)
  \/ (model_type = VStr "linear-cropped-dropout"
      /\ kl = KerasLinear linear_cropped_dropout)
  \/ (model_type = VStr "rnn" /\ kl = KerasRNN_LSTM).
Proof.
  unfold get_model.
  destruct (eq_str model_type "linear") eqn:E1;
    [apply eq_str_true in E1; intros [= <-]; auto |].
  destruct (eq_str model_type "linear-dropout") eqn:E2;
    [apply eq_str_true in E2; intros [= <-]; auto |].
  destruct (eq_str model_type "linear-cropped-dropout") eqn:E3;
    [apply eq_str_true in E3; intros [= <-]; auto 6 |].
  destruct (eq_str model_type "rnn") eqn:E4;
    [apply eq_str_true in E4; intros [= <-]; auto 6 |].
  discriminate.
Qed.

(** X3.  [get_model] is injective where it returns: two model types that
    yield the same model are the same string; the recurrent model is
    returned for ['rnn'] only. *)
Theorem get_model_injective (t1 t2 : value) (kl : pilot) :
  get_model t1 = Ok kl -> get_model t2 = Ok kl ->
  t1 = t2 /\ (kl = KerasRNN_LSTM <-> t1 = VStr "rnn").
Proof.
  intros H1 H2.
  apply get_model_inv in H1, H2.
  destruct H1 as [[-> ->] | [[-> ->] | [[-> ->] | [-> ->]]]];
    destruct H2 as [[-> H] | [[-> H] | [[-> H] | [-> H]]]];
    try discriminate H; (split; [reflexivity |]);
    split; intros E; try discriminate E; reflexivity.
Qed.

Lemma get_model_injective_witness :
  VStr "rnn" = VStr "rnn" /\ (KerasRNN_LSTM = KerasRNN_LSTM <-> VStr "rnn" = VStr "rnn").
Proof.
  apply (get_model_injective (VStr "rnn") (VStr "rnn") KerasRNN_LSTM
                             eq_refl eq_refl).
Defined.

(* ===================================================================== *)
(** ** Further properties of the assembly in [drive] *)
(* ===================================================================== *)

(** X4.  [drive] gets as far as [V.start] exactly when the model type is
    one [get_model] knows, and fails with [ValueError] otherwise, whatever
    the configuration and the other arguments are; the pilot it registers
    is the model of that type, with weights loaded from [model_path]
    exactly when [model_path] is true ([None] and [''] load nothing). *)
Theorem drive_assemble_outcome (cfg : config) (mp mt js ch : value) :
  (returns (drive_assemble cfg mp mt js ch) <-> known_model_type mt)
  /\ (~ known_model_type mt ->
      drive_assemble cfg mp mt js ch = Raise (ValueError "Unknown model type"))
  /\ (forall a : assembled,
        drive_assemble cfg mp mt js ch = Ok a ->
        exists (kl : pilot) (e4 : entry),
          get_model mt = Ok kl
          /\ a_vehicle a !! 4%nat = Some e4
          /\ e_part e4 = Pilot kl (if truthy mp then Some mp else None)
          /\ (forall (i : nat) (e : entry) (kl' : pilot) (l : option value),
                a_vehicle a !! i = Some e -> e_part e = Pilot kl' l -> i = 4%nat))
  /\ (mp = VNone \/ mp = VStr "" ->
      forall a : assembled,
        drive_assemble cfg mp mt js ch = Ok a ->
        exists (kl : pilot) (e4 : entry),
          a_vehicle a !! 4%nat = Some e4 /\ e_part e4 = Pilot kl None).
Proof.
  assert (Hcases :
    (known_model_type mt /\ exists kl, get_model mt = Ok kl)
    \/ (~ known_model_type mt
        /\ get_model mt = Raise (ValueError "Unknown model type")))
    by (destruct (get_model_cases mt) as [[? [kl ?]] | [? ?]]; eauto).
  assert (Hinv : forall a, drive_assemble cfg mp mt js ch = Ok a ->
            exists (kl : pilot) (e4 : entry),
              get_model mt = Ok kl
              /\ a_vehicle a !! 4%nat = Some e4
              /\ e_part e4 = Pilot kl (if truthy mp then Some mp else None)
              /\ (forall (i : nat) (e : entry) (kl' : pilot) (l : option value),
                    a_vehicle a !! i = Some e -> e_part e = Pilot kl' l ->
                    i = 4%nat)).
  { intros a. unfold drive_assemble.
    destruct (get_model mt) as [kl |]; simpl; [| discriminate].
    intros [= <-]. exists kl. eexists. repeat split.
    intros i e kl' l Hi Hp. unfold V_add in Hi. simpl in Hi.
    each_position Hi; simpl in Hp; try discriminate Hp; try reflexivity.
    unfold controller in Hp. destruct (truthy js); discriminate Hp. }
  split; [| split; [| split]].
  - split.
    + intros [a Ha]. destruct Hcases as [[Hk _] | [_ Hr]]; [exact Hk |].
      unfold drive_assemble in Ha. rewrite Hr in Ha. discriminate Ha.
    + intros Hk. destruct Hcases as [[_ [kl Hr]] | [Hn _]]; [| tauto].
      unfold drive_assemble. rewrite Hr. simpl. unfold returns. eauto.
  - intros Hn. destruct Hcases as [[Hk _] | [_ Hr]]; [tauto |].
    unfold drive_assemble. rewrite Hr. reflexivity.
  - exact Hinv.
  - intros Hmp a Ha. destruct (Hinv a Ha) as (kl & e4 & _ & He4 & Hp & _).
    exists kl, e4. split; [exact He4 |].
    destruct Hmp as [-> | ->]; exact Hp.
Qed.

(** X5.  No two units registered by [drive] declare the same output key:
    every signal on the Bus has a single producer. *)
Theorem outputs_single_producer (cfg : config) (mp mt js ch : value)
        (a : assembled) :
  drive_assemble cfg mp mt js ch = Ok a ->
  NoDup (all_outputs (a_vehicle a))
  /\ forall (i j : nat) (e e' : entry) (k : string),
       a_vehicle a !! i = Some e -> a_vehicle a !! j = Some e' ->
       k ∈ e_outputs e -> k ∈ e_outputs e' -> i = j.
Proof.
  intros H. apply drive_assemble_inv in H as (kl & loaded & _ & _ & _ & ->).
  split.
  - apply (bool_decide_unpack _). vm_compute. exact I.
  - intros i j e e' k Hi Hj Hk Hk'.
    each_position Hi; each_position Hj; try reflexivity; simpl in Hk, Hk';
      repeat (apply elem_of_cons in Hk as [-> | Hk]);
      try (apply elem_of_nil in Hk; destruct Hk);
      repeat (apply elem_of_cons in Hk' as [Hk' | Hk']);
      try (apply elem_of_nil in Hk'; destruct Hk');
      discriminate Hk'.
Qed.

Lemma outputs_single_producer_witness :
  NoDup (all_outputs Demo.car).
Proof.
  apply (proj1 (outputs_single_producer Demo.cfg VNone (VStr "linear")
                  (VBool false) (VBool false) _ eq_refl)).
Defined.

Lemma consumed_sound (us : list entry) :
  consumed us = true ->
  forall (j : nat) (e' : entry) (k : string),
    us !! j = Some e' -> k ∈ e_outputs e' ->
    exists (i : nat) (e : entry),
      (j < i)%nat /\ us !! i = Some e /\ k ∈ reads e.
Proof.
  induction us as [| e0 us IH]; intros Hc j e' k Hj Hk.
  - discriminate Hj.
  - simpl in Hc. apply andb_true_iff in Hc as [Hhere Hrest].
    destruct j as [| j]; simpl in Hj.
    + injection Hj as <-.
      rewrite forallb_forall in Hhere.
      apply list_elem_of_In in Hk. apply Hhere in Hk.
      apply existsb_exists in Hk as (e & He & Hd).
      apply bool_decide_eq_true in Hd.
      apply list_elem_of_In, list_elem_of_lookup in He as [i Hi].
      exists (S i), e. repeat split; [lia | exact Hi | exact Hd].
    + destruct (IH Hrest j e' k Hj Hk) as (i & e & Hlt & Hi & Hr).
      exists (S i), e. repeat split; [lia | exact Hi | exact Hr].
Qed.

(** X6.  No unit of [drive] produces a signal in vain: every output key
    is read, as an input or as a run condition, by a unit registered
    strictly later. *)
Theorem outputs_read_downstream (cfg : config) (mp mt js ch : value)
        (a : assembled) :
  drive_assemble cfg mp mt js ch = Ok a ->
  read_downstream (a_vehicle a).
Proof.
  intros H. apply drive_assemble_inv in H as (kl & loaded & _ & _ & _ & ->).
  refine (consumed_sound _ _). vm_compute. reflexivity.
Qed.

Lemma outputs_read_downstream_witness :
  read_downstream Demo.car.
Proof.
  apply (outputs_read_downstream Demo.cfg VNone (VStr "linear")
           (VBool false) (VBool false) _ eq_refl).
Defined.

(** X7.  The wiring does not depend on the arguments of [drive]: whatever
    the configuration, the model, the model path, the controller variant
    and the chaos flag, the units are registered in the same order with
    the same input keys, output keys, threaded flags and run-condition
    keys. *)
Theorem wiring_independent_of_arguments
        (cfg cfg' : config) (mp mt js ch mp' mt' js' ch' : value)
        (a a' : assembled) :
  drive_assemble cfg mp mt js ch = Ok a ->
  drive_assemble cfg' mp' mt' js' ch' = Ok a' ->
  map descriptor (a_vehicle a) = map descriptor (a_vehicle a')
  /\ List.length (a_vehicle a) = List.length (a_vehicle a').
Proof.
  intros H H'.
  apply drive_assemble_inv in H as (kl & loaded & _ & _ & _ & ->).
  apply drive_assemble_inv in H' as (kl' & loaded' & _ & _ & _ & ->).
  split; reflexivity.
Qed.

Lemma wiring_independent_of_arguments_witness :
  map descriptor Demo.car = map descriptor joystick_car
  /\ List.length Demo.car = List.length joystick_car.
Proof.
  apply (wiring_independent_of_arguments Demo.cfg Demo.cfg
           VNone (VStr "linear") (VBool false) (VBool false)
           (VStr "/home/car/models/pilot") (VStr "rnn") (VBool true) (VBool true)
           _ _ eq_refl eq_refl).
Defined.

Lemma controller_not_tub (cfg : config) (js ch : value) :
  is_tub_writer (controller cfg js ch) = false.
Proof. unfold controller. destruct (truthy js); reflexivity. Qed.

(** X8.  The TubWriter is registered once, as the last of the nine units
    (position 8), and records sensed values only: each of the five keys it
    reads is an output of a unit registered before it, and every producer
    of such a key is the clock, the camera or the input controller, never
    the pilot or [drive_mode]. *)
Theorem tub_records_sensed_values (cfg : config) (mp mt js ch : value)
        (a : assembled) :
  drive_assemble cfg mp mt js ch = Ok a ->
  List.length (a_vehicle a) = 9%nat
  /\ (exists e8 : entry,
        a_vehicle a !! 8%nat = Some e8
        /\ e_part e8 = TubWriter (TUB_PATH cfg) tub_inputs tub_types
        /\ e_inputs e8 = tub_inputs
        /\ forall k : string,
             k ∈ e_inputs e8 ->
             exists (j : nat) (e' : entry),
               (j < 8)%nat /\ a_vehicle a !! j = Some e'
               /\ k ∈ e_outputs e' /\ senses cfg js ch (e_part e'))
  /\ forall (i : nat) (e : entry),
       a_vehicle a !! i = Some e -> is_tub_writer (e_part e) = true ->
       i = 8%nat
       /\ forall (k : string) (j : nat) (e' : entry),
            k ∈ e_inputs e -> a_vehicle a !! j = Some e' -> k ∈ e_outputs e' ->
            senses cfg js ch (e_part e').
Proof.
  intros H. apply drive_assemble_inv in H as (kl & loaded & _ & _ & _ & ->).
  split; [reflexivity |]. split.
  - eexists. split; [reflexivity |]. split; [reflexivity |].
    split; [reflexivity |].
    intros k Hk. simpl in Hk. unfold tub_inputs in Hk.
    repeat (apply elem_of_cons in Hk as [-> | Hk]);
      try (apply elem_of_nil in Hk; destruct Hk).
    + exists 1%nat. eexists. split; [lia |]. split; [reflexivity |].
      split; [simpl; repeat constructor | unfold senses; simpl; auto].
    + exists 2%nat. eexists. split; [lia |]. split; [reflexivity |].
      split; [simpl; repeat constructor | unfold senses; simpl; auto].
    + exists 2%nat. eexists. split; [lia |]. split; [reflexivity |].
      split; [simpl; repeat constructor | unfold senses; simpl; auto].
    + exists 2%nat. eexists. split; [lia |]. split; [reflexivity |].
      split; [simpl; repeat constructor | unfold senses; simpl; auto].
    + exists 0%nat. eexists. split; [lia |]. split; [reflexivity |].
      split; [simpl; repeat constructor | unfold senses; simpl; auto].
  - intros i e Hi Ht.
    each_position Hi; simpl in Ht; try discriminate Ht.
    + rewrite controller_not_tub in Ht. discriminate Ht.
    + split; [reflexivity |].
      intros k j e' Hk Hj Hk'. unfold senses.
      each_position Hj; simpl; auto; simpl in Hk, Hk'; exfalso;
        repeat (apply elem_of_cons in Hk as [-> | Hk]);
        try (apply elem_of_nil in Hk; destruct Hk);
        repeat (apply elem_of_cons in Hk' as [Hk' | Hk']);
        try (apply elem_of_nil in Hk'; destruct Hk');
        discriminate Hk'.
Qed.

Lemma tub_records_sensed_values_witness :
  List.length Demo.car = 9%nat
  /\ exists e8 : entry,
       Demo.car !! 8%nat = Some e8
       /\ e_part e8 = TubWriter (TUB_PATH Demo.cfg) tub_inputs tub_types
       /\ e_inputs e8 = tub_inputs
       /\ forall k : string,
            k ∈ e_inputs e8 ->
            exists (j : nat) (e' : entry),
              (j < 8)%nat /\ Demo.car !! j = Some e'
              /\ k ∈ e_outputs e'
              /\ senses Demo.cfg (VBool false) (VBool false) (e_part e').
Proof.
  destruct (tub_records_sensed_values Demo.cfg VNone (VStr "linear")
              (VBool false) (VBool false) _ eq_refl) as (Hlen & Hex & _).
  split; [exact Hlen | exact Hex].
Defined.

(* ===================================================================== *)
(** ** Further properties of [train] *)
(* ===================================================================== *)

Lemma mul_int_float_raises (n : Z) (x : spec_float) (e : exn) :
  mul_int_float n x = Raise e -> e = OverflowError.
Proof.
  unfold mul_int_float, float_of_int.
  destruct (binary_normalize prec emax n 0 false); simpl; congruence.
Qed.

Lemma train_split_raises (cfg : config) (n : Z) (e : exn) :
  train_split cfg n = Raise e -> arithmetic_error e.
Proof.
  unfold train_split, arithmetic_error.
  destruct (mul_int_float n (TRAIN_TEST_SPLIT cfg)) as [p | e0] eqn:Hp; simpl.
  - destruct p as [s | s | | s m ex]; simpl; try (intros [= <-]; auto).
    + unfold floordiv. destruct (BATCH_SIZE cfg =? 0); simpl;
        [intros [= <-]; auto | discriminate].
    + unfold floordiv. destruct (BATCH_SIZE cfg =? 0); simpl;
        [intros [= <-]; auto | discriminate].
  - intros [= <-]. apply mul_int_float_raises in Hp. auto.
Qed.

Lemma train_split_returns_iff (cfg : config) (n : Z) :
  returns (train_split cfg n) <->
  exists p : spec_float,
    mul_int_float n (TRAIN_TEST_SPLIT cfg) = Ok p
    /\ finite p = true /\ BATCH_SIZE cfg <> 0.
Proof.
  unfold train_split, returns. split.
  - intros [sp H].
    destruct (mul_int_float n (TRAIN_TEST_SPLIT cfg)) as [p |]; simpl in H;
      [| discriminate H].
    exists p. split; [reflexivity |].
    destruct (int_of_float p) as [tt |] eqn:Hi; simpl in H; [| discriminate H].
    unfold floordiv in H.
    destruct (BATCH_SIZE cfg =? 0) eqn:Hb; simpl in H; [discriminate H |].
    apply Z.eqb_neq in Hb. split; [| exact Hb].
    destruct p; simpl in *; congruence.
  - intros (p & -> & Hfin & Hb). simpl.
    destruct (int_of_float_finite p Hfin) as [z ->]. simpl.
    unfold floordiv. apply Z.eqb_neq in Hb. rewrite Hb. simpl. eauto.
Qed.

(** X9.  The arithmetic of [train] returns exactly when the float product
    [n * cfg.TRAIN_TEST_SPLIT] is finite and [cfg.BATCH_SIZE] is not 0.
    Otherwise it raises [OverflowError] (the count does not fit a float,
    or the product is infinite), [ValueError] (the product is NaN) or
    [ZeroDivisionError] (a zero batch size with a finite product), and
    nothing else; a NaN split never yields a result. *)
Theorem train_split_outcome (cfg : config) (n : Z) :
  (returns (train_split cfg n) <->
   exists p : spec_float,
     mul_int_float n (TRAIN_TEST_SPLIT cfg) = Ok p
     /\ finite p = true /\ BATCH_SIZE cfg <> 0)
  /\ (forall e : exn, train_split cfg n = Raise e -> arithmetic_error e)
  /\ (forall p : spec_float,
        mul_int_float n (TRAIN_TEST_SPLIT cfg) = Ok p ->
        match p with
        | S754_nan =>
            train_split cfg n
            = Raise (ValueError "cannot convert float NaN to integer")
        | S754_infinity _ => train_split cfg n = Raise OverflowError
        | _ => BATCH_SIZE cfg = 0 ->
               train_split cfg n = Raise ZeroDivisionError
        end)
  /\ (TRAIN_TEST_SPLIT cfg = S754_nan -> ~ returns (train_split cfg n)).
Proof.
  split; [apply train_split_returns_iff |].
  split; [apply train_split_raises |].
  split.
  - intros p Hp. unfold train_split. rewrite Hp. simpl.
    destruct p; simpl; try reflexivity;
      intros ->; reflexivity.
  - intros Hnan Hr. apply train_split_returns_iff in Hr as (p & Hp & Hfin & _).
    unfold mul_int_float in Hp. rewrite Hnan in Hp.
    destruct (float_of_int n) as [fn |]; simpl in Hp; [| discriminate Hp].
    injection Hp as <-. destruct fn; discriminate Hfin.
Qed.

(** X10.  For [n >= 0] records, a non-negative split and a positive batch
    size, the counts [train] computes are not negative, and
    [steps_per_epoch] batches fit into the training records with fewer
    than one batch of records left over. *)
Theorem train_split_bounds (cfg : config) (n : Z) (sp : split) :
  0 <= n -> nonneg (TRAIN_TEST_SPLIT cfg) = true -> 0 < BATCH_SIZE cfg ->
  train_split cfg n = Ok sp ->
  0 <= total_train sp
  /\ 0 <= steps_per_epoch sp
  /\ steps_per_epoch sp * BATCH_SIZE cfg <= total_train sp
  /\ total_train sp < (steps_per_epoch sp + 1) * BATCH_SIZE cfg
  /\ total_val sp <= n.
Proof.
  intros Hn Hx Hb. unfold train_split.
  destruct (mul_int_float n (TRAIN_TEST_SPLIT cfg)) as [p |] eqn:Hp;
    simpl; [| discriminate].
  destruct (int_of_float p) as [tt |] eqn:Hi; simpl; [| discriminate].
  unfold floordiv.
  destruct (BATCH_SIZE cfg =? 0) eqn:Hb0; simpl; [discriminate |].
  intros [= <-]. simpl.
  assert (Hfin : finite p = true)
    by (destruct p; simpl in *; congruence).
  destruct (int_of_float_floor p tt
              (mul_int_float_sign n _ p Hn Hx Hp Hfin) Hi) as [_ Hpos].
  pose proof (Z.div_pos tt (BATCH_SIZE cfg) Hpos Hb) as Hq.
  pose proof (Z.mul_div_le tt (BATCH_SIZE cfg) Hb) as Hle.
  pose proof (Z.mul_succ_div_gt tt (BATCH_SIZE cfg) Hb) as Hgt.
  repeat split; try lia.
Qed.

Lemma train_split_bounds_witness :
  let sp := {| total_train := 800; total_val := 200; steps_per_epoch := 6 |} in
  0 <= total_train sp
  /\ 0 <= steps_per_epoch sp
  /\ steps_per_epoch sp * BATCH_SIZE Demo.cfg <= total_train sp
  /\ total_train sp < (steps_per_epoch sp + 1) * BATCH_SIZE Demo.cfg
  /\ total_val sp <= 1000.
Proof.
  apply (train_split_bounds Demo.cfg 1000 _ ltac:(lia) eq_refl eq_refl).
  vm_compute. reflexivity.
Defined.

(** X11.  With no records, or with a split of zero, nothing is trained on:
    whenever the arithmetic of [train] returns, [total_train] is 0,
    [total_val] is the whole record count and [steps_per_epoch] is 0; and
    with no records it does return for every finite split and non-zero
    batch size. *)
Theorem train_split_nothing_to_train (cfg : config) (n : Z) :
  n = 0 \/ is_zero (TRAIN_TEST_SPLIT cfg) = true ->
  (forall sp : split,
      train_split cfg n = Ok sp ->
      total_train sp = 0 /\ total_val sp = n /\ steps_per_epoch sp = 0)
  /\ (n = 0 -> finite (TRAIN_TEST_SPLIT cfg) = true -> BATCH_SIZE cfg <> 0 ->
      train_split cfg n
      = Ok {| total_train := 0; total_val := 0; steps_per_epoch := 0 |}).
Proof.
  intros Hz. split.
  - intros sp. unfold train_split.
    destruct (mul_int_float n (TRAIN_TEST_SPLIT cfg)) as [p |] eqn:Hp;
      simpl; [| discriminate].
    assert (Hp0 : (exists s, p = S754_zero s) \/ finite p = false).
    { unfold mul_int_float in Hp.
      destruct (float_of_int n) as [fn |] eqn:Hfn; simpl in Hp;
        [| discriminate Hp].
      injection Hp as <-.
      destruct Hz as [-> | Hz].
      - injection Hfn as <-.
        destruct (TRAIN_TEST_SPLIT cfg); simpl; eauto.
      - destruct (TRAIN_TEST_SPLIT cfg); try discriminate Hz.
        destruct fn; simpl; eauto. }
    destruct Hp0 as [[s ->] | Hinf].
    + simpl. unfold floordiv.
      destruct (BATCH_SIZE cfg =? 0); simpl; [discriminate |].
      intros [= <-]. simpl. repeat split; lia.
    + destruct p; simpl in *; discriminate.
  - intros -> Hfin Hb. unfold train_split, mul_int_float. simpl.
    apply Z.eqb_neq in Hb.
    destruct (TRAIN_TEST_SPLIT cfg); try discriminate Hfin; simpl;
      unfold floordiv; rewrite Hb; reflexivity.
Qed.

Lemma train_split_nothing_to_train_witness :
  train_split Demo.cfg 0
  = Ok {| total_train := 0; total_val := 0; steps_per_epoch := 0 |}.
Proof.
  apply (proj2 (train_split_nothing_to_train Demo.cfg 0 (or_introl eq_refl))
               eq_refl eq_refl).
  discriminate.
Defined.

Lemma train_after_base {W : Type} (ext : collaborators W) (cfg : config)
      (tub_names : value) (s : string)
      (model_type base_model_path : option value) (kl : pilot) :
  get_model (default (VStr "linear-dropout") model_type) = Ok kl ->
  default VNone base_model_path = VNone
  \/ is_str (default VNone base_model_path) = true ->
  exists base : option value,
    train ext cfg tub_names (VStr s) model_type base_model_path
    = (let* tn := if truthy tub_names then Ok tub_names
                  else py_path_join ext (DATA_PATH cfg) "*" in
       let* sp := train_split cfg (tub_group_len ext tn) in
       Ok {| t_pilot := kl; t_base_model := base;
             t_saved_model_path := VStr (expanduser ext s);
             t_tub_names := tn; t_split := sp |}).
Proof.
  intros Hkl Hb. unfold train. simpl. rewrite Hkl. simpl.
  destruct (default VNone base_model_path) as [| | | | b | |] eqn:Eb;
    try (destruct Hb as [Hb | Hb]; discriminate Hb).
  - exists None. simpl. destruct (truthy tub_names); reflexivity.
  - eexists. simpl. destruct (truthy tub_names); reflexivity.
Qed.

(** X12.  The errors of [train] come in the order of its statements: a
    [new_model_path] that is not a string raises [TypeError] before the
    model type is looked at; with a string path, an unknown model type
    raises [ValueError]; with both in order, a [base_model_path] that is
    neither [None] nor a string raises [TypeError]; after that, a false
    [tub_names] with a [cfg.DATA_PATH] that is not a string raises
    [TypeError]; only when [tub_names] is true or [cfg.DATA_PATH] is a
    string can the arithmetic be reached, and then nothing else fails. *)
Theorem train_error_order {W : Type} (ext : collaborators W) (cfg : config)
        (tub_names new_model_path : value)
        (model_type base_model_path : option value) :
  let mt := default (VStr "linear-dropout") model_type in
  let base := default VNone base_model_path in
  (is_str new_model_path = false ->
   train ext cfg tub_names new_model_path model_type base_model_path
   = Raise TypeError)
  /\ (is_str new_model_path = true -> ~ known_model_type mt ->
      train ext cfg tub_names new_model_path model_type base_model_path
      = Raise (ValueError "Unknown model type"))
  /\ (is_str new_model_path = true -> known_model_type mt ->
      base <> VNone -> is_str base = false ->
      train ext cfg tub_names new_model_path model_type base_model_path
      = Raise TypeError)
  /\ (is_str new_model_path = true -> known_model_type mt ->
      base = VNone \/ is_str base = true ->
      truthy tub_names = false -> is_str (DATA_PATH cfg) = false ->
      train ext cfg tub_names new_model_path model_type base_model_path
      = Raise TypeError)
  /\ (is_str new_model_path = true -> known_model_type mt ->
      base = VNone \/ is_str base = true ->
      truthy tub_names = true \/ is_str (DATA_PATH cfg) = true ->
      forall e : exn,
        train ext cfg tub_names new_model_path model_type base_model_path
        = Raise e ->
        arithmetic_error e).
Proof.
  cbv zeta.
  split; [| split; [| split; [| split]]].
  - intros Hs. unfold train.
    destruct new_model_path; try discriminate Hs; reflexivity.
  - intros Hs Hk. unfold train.
    destruct new_model_path; try discriminate Hs. simpl.
    destruct (get_model_cases (default (VStr "linear-dropout") model_type))
      as [[Hk' _] | [_ ->]]; [tauto | reflexivity].
  - intros Hs Hk Hb Hbs. unfold train.
    destruct new_model_path; try discriminate Hs. simpl.
    destruct (get_model_cases (default (VStr "linear-dropout") model_type))
      as [[_ [kl ->]] | [Hn _]]; [| tauto]. simpl.
    destruct (default VNone base_model_path);
      try discriminate Hbs; try reflexivity. congruence.
  - intros Hs Hk Hb Ht Hd.
    destruct new_model_path as [| | | | s | |]; try discriminate Hs.
    destruct (get_model_cases (default (VStr "linear-dropout") model_type))
      as [[_ [kl Hkl]] | [Hn _]]; [| tauto].
    destruct (train_after_base ext cfg tub_names s model_type
                base_model_path kl Hkl Hb) as [o ->].
    rewrite Ht. destruct (DATA_PATH cfg); try discriminate Hd; reflexivity.
  - intros Hs Hk Hb Ht e.
    destruct new_model_path as [| | | | s | |]; try discriminate Hs.
    destruct (get_model_cases (default (VStr "linear-dropout") model_type))
      as [[_ [kl Hkl]] | [Hn _]]; [| tauto].
    destruct (train_after_base ext cfg tub_names s model_type
                base_model_path kl Hkl Hb) as [o ->].
    assert (Htn : exists tn, (if truthy tub_names then Ok tub_names
                              else py_path_join ext (DATA_PATH cfg) "*")
                             = Ok tn).
    { destruct (truthy tub_names); [eauto |].
      destruct Ht as [Ht | Ht]; [discriminate Ht |].
      destruct (DATA_PATH cfg); try discriminate Ht. simpl. eauto. }
    destruct Htn as [tn ->]. simpl.
    destruct (train_split cfg (tub_group_len ext tn)) as [sp | e0] eqn:Hsp;
      simpl; [discriminate |].
    intros [= <-]. eapply train_split_raises. exact Hsp.
Qed.

Lemma train_error_order_witness :
  train (Demo.ext "user" false) Demo.cfg VNone VNone (Some (VStr "nope")) None
  = Raise TypeError
  /\ train (Demo.ext "user" false) Demo.cfg VNone (VStr "m") (Some (VStr "nope"))
           (Some (VInt 3))
     = Raise (ValueError "Unknown model type")
  /\ train (Demo.ext "user" false) Demo.cfg VNone (VStr "m") None (Some (VInt 3))
     = Raise TypeError
  /\ train (Demo.ext "user" false) cfg_no_data_path VNone (VStr "m") None None
     = Raise TypeError.
Proof.
  split; [| split; [| split]].
  - apply (proj1 (train_error_order (Demo.ext "user" false) Demo.cfg VNone VNone
                    (Some (VStr "nope")) None)).
    reflexivity.
  - apply (proj1 (proj2 (train_error_order (Demo.ext "user" false) Demo.cfg
                           VNone (VStr "m") (Some (VStr "nope"))
                           (Some (VInt 3)))));
      [reflexivity |].
    intros [H | [H | [H | H]]]; discriminate H.
  - apply (proj1 (proj2 (proj2 (train_error_order (Demo.ext "user" false)
                                  Demo.cfg VNone (VStr "m") None
                                  (Some (VInt 3))))));
      [reflexivity | right; left; reflexivity | discriminate | reflexivity].
  - apply (proj1 (proj2 (proj2 (proj2
             (train_error_order (Demo.ext "user" false) cfg_no_data_path
                                VNone (VStr "m") None None)))));
      [reflexivity | right; left; reflexivity | left; reflexivity
       | reflexivity | reflexivity].
Defined.

(** X13.  An empty tub selection means all of [cfg.DATA_PATH]: when
    [train] returns with [tub_names] false ([None], ['']),
    [cfg.DATA_PATH] is a string and the tub group is the one of
    [os.path.join(cfg.DATA_PATH, '*')]; with a false [tub_names] and a
    [cfg.DATA_PATH] that is not a string [train] does not return; a true
    [tub_names] is used unchanged; and the records counted are those of
    the tub group so chosen. *)
Theorem train_tub_default {W : Type} (ext : collaborators W) (cfg : config)
        (tub_names new_model_path : value)
        (model_type base_model_path : option value) :
  (forall t : training,
      train ext cfg tub_names new_model_path model_type base_model_path
      = Ok t ->
      (truthy tub_names = true -> t_tub_names t = tub_names)
      /\ (truthy tub_names = false ->
          exists d : string,
            DATA_PATH cfg = VStr d
            /\ t_tub_names t = VStr (path_join ext d "*"))
      /\ train_split cfg (tub_group_len ext (t_tub_names t)) = Ok (t_split t))
  /\ (truthy tub_names = false -> is_str (DATA_PATH cfg) = false ->
      ~ returns (train ext cfg tub_names new_model_path model_type
                       base_model_path)).
Proof.
  assert (Hinv : forall t : training,
    train ext cfg tub_names new_model_path model_type base_model_path
    = Ok t ->
    (if truthy tub_names then Ok tub_names
     else py_path_join ext (DATA_PATH cfg) "*") = Ok (t_tub_names t)
    /\ train_split cfg (tub_group_len ext (t_tub_names t)) = Ok (t_split t)).
  { intros t. unfold train.
    destruct (py_expanduser ext new_model_path) as [p |]; simpl;
      [| discriminate].
    destruct (get_model _) as [kl |]; simpl; [| discriminate].
    destruct (match default VNone base_model_path with
              | VNone => Ok None
              | _ => _
              end) as [o |]; simpl; [| discriminate].
    destruct (truthy tub_names); simpl.
    - destruct (train_split cfg _) as [sp |] eqn:Hsp; simpl; [| discriminate].
      intros [= <-]. simpl. auto.
    - destruct (py_path_join ext (DATA_PATH cfg) "*") as [tn |]; simpl;
        [| discriminate].
      destruct (train_split cfg _) as [sp |] eqn:Hsp; simpl; [| discriminate].
      intros [= <-]. simpl. auto. }
  split.
  - intros t Ht. destruct (Hinv t Ht) as [Htn Hsp].
    split; [| split; [| exact Hsp]].
    + intros Hy. rewrite Hy in Htn. congruence.
    + intros Hy. rewrite Hy in Htn.
      destruct (DATA_PATH cfg) as [| | | | d | |]; try discriminate Htn.
      exists d. split; [reflexivity |]. simpl in Htn. congruence.
  - intros Hy Hd [t Ht]. destruct (Hinv t Ht) as [Htn _].
    rewrite Hy in Htn.
    destruct (DATA_PATH cfg); try discriminate Hd; discriminate Htn.
Qed.

Lemma train_tub_default_witness :
  ~ returns (train (Demo.ext "user" false) cfg_no_data_path (VStr "")
                   (VStr "m") (Some (VStr "linear")) None).
Proof.
  apply (proj2 (train_tub_default (Demo.ext "user" false) cfg_no_data_path
                  (VStr "") (VStr "m") (Some (VStr "linear")) None));
    reflexivity.
Defined.

(** X14.  On the command line the [train] command cannot fail on the
    types of its command-line arguments, [--model] being always a string
    and [--base_model] a string or absent: [__main__] either trains, or
    raises [ValueError] for an unknown [--type], or raises [TypeError]
    because [--tub] is absent or empty and [cfg.DATA_PATH] is not a
    string, or fails in the record arithmetic; it never starts the
    vehicle, and [--no_cache] has no influence on the outcome. *)
Theorem main_train_outcome {W : Type} (ext : collaborators W) (cfg : config)
        (tub : option string) (model : string) (type base_model : option string)
        (no_cache : bool) (w : W) (fuel : nat) :
  let run := main ext cfg (CmdTrain tub model type base_model no_cache) w fuel in
  (forall (no_cache' : bool) (w' : W) (fuel' : nat),
      main ext cfg (CmdTrain tub model type base_model no_cache') w' fuel' = run)
  /\ (forall e : exn,
        run = Raise e ->
        (e = ValueError "Unknown model type" /\ ~ known_model_type (opt type))
        \/ (e = TypeError /\ known_model_type (opt type)
            /\ truthy (opt tub) = false /\ is_str (DATA_PATH cfg) = false)
        \/ (arithmetic_error e /\ known_model_type (opt type)
            /\ (truthy (opt tub) = true \/ is_str (DATA_PATH cfg) = true)))
  /\ (known_model_type (opt type) ->
      truthy (opt tub) = false -> is_str (DATA_PATH cfg) = false ->
      run = Raise TypeError)
  /\ (forall o : @outcome W,
        run = Ok o ->
        exists t : training,
          o = Trained t
          /\ get_model (opt type) = Ok (t_pilot t)
          /\ t_saved_model_path t = VStr (expanduser ext model)
          /\ t_base_model t
             = option_map (fun s => VStr (expanduser ext s)) base_model).
Proof.
  cbv zeta. split; [reflexivity |].
  assert (Hbase : forall kl : pilot,
    get_model (opt type) = Ok kl ->
    train ext cfg (opt tub) (VStr model) (Some (opt type))
          (Some (opt base_model))
    = (let* tn := if truthy (opt tub) then Ok (opt tub)
                  else py_path_join ext (DATA_PATH cfg) "*" in
       let* sp := train_split cfg (tub_group_len ext tn) in
       Ok {| t_pilot := kl;
             t_base_model := option_map (fun s => VStr (expanduser ext s))
                                        base_model;
             t_saved_model_path := VStr (expanduser ext model);
             t_tub_names := tn; t_split := sp |})).
  { intros kl Hkl. unfold train. simpl. rewrite Hkl. simpl.
    destruct base_model; simpl; destruct (truthy (opt tub)); reflexivity. }
  unfold main.
  destruct (get_model_cases (opt type)) as [[Hk [kl Hr]] | [Hn Hr]].
  - rewrite (Hbase kl Hr).
    destruct (truthy (opt tub)) eqn:Ht.
    + simpl.
      destruct (train_split cfg _) as [sp | e0] eqn:Hsp; simpl.
      * split; [discriminate |]. split; [discriminate |].
        intros o [= <-]. eexists. repeat split. exact Hr.
      * split; [| split; [discriminate | discriminate]].
        intros e [= <-]. right. right.
        split; [eapply train_split_raises; exact Hsp |]. auto.
    + destruct (DATA_PATH cfg) as [| | | | d | |] eqn:Hd; simpl;
        try (split; [intros e [= <-]; right; left; auto |];
             split; [reflexivity | discriminate]).
      destruct (train_split cfg _) as [sp | e0] eqn:Hsp; simpl.
      * split; [discriminate |]. split; [discriminate |].
        intros o [= <-]. eexists. repeat split. exact Hr.
      * split; [| split; [discriminate | discriminate]].
        intros e [= <-]. right. right.
        split; [eapply train_split_raises; exact Hsp |]. auto.
  - unfold train. simpl. rewrite Hr. simpl.
    split; [| split; [tauto | discriminate]].
    intros e [= <-]. left. split; [reflexivity | exact Hn].
Qed.

Lemma main_train_outcome_witness :
  main (Demo.ext "user" false) cfg_no_data_path
       (CmdTrain None "m" (Some "linear") None false) 0%nat 0
  = Raise TypeError.
Proof.
  apply (proj1 (proj2 (proj2 (main_train_outcome (Demo.ext "user" false)
                                cfg_no_data_path None "m" (Some "linear")
                                None false 0%nat 0%nat))));
    [left; reflexivity | reflexivity | reflexivity].
Defined.

Lemma controller_not_actuator (cfg : config) (js ch : value) :
  is_actuator (controller cfg js ch) = false.
Proof. unfold controller. destruct (truthy js); reflexivity. Qed.

(** X15.  The actuators are driven by [drive_mode] alone: [drive]
    registers the steering unit at position 6 reading ['angle'] and the
    throttle unit at position 7 reading ['throttle'], both without
    outputs, after the [drive_mode] unit at position 5, whose outputs are
    ['angle'] and ['throttle']; there is no other actuator, and every
    producer of a key an actuator reads is the [drive_mode] unit, never
    the controller or the pilot directly. *)
Theorem actuators_follow_drive_mode (cfg : config) (mp mt js ch : value)
        (a : assembled) :
  drive_assemble cfg mp mt js ch = Ok a ->
  (exists e5 e6 e7 : entry,
      a_vehicle a !! 5%nat = Some e5
      /\ e_part e5 = Lambda drive_mode_fn
      /\ e_outputs e5 = ["angle"; "throttle"]
      /\ a_vehicle a !! 6%nat = Some e6
      /\ e_part e6 = PWMSteering (STEERING_CHANNEL cfg) (STEERING_LEFT_PWM cfg)
                                 (STEERING_RIGHT_PWM cfg)
      /\ e_inputs e6 = ["angle"] /\ e_outputs e6 = []
      /\ a_vehicle a !! 7%nat = Some e7
      /\ e_part e7 = PWMThrottle (THROTTLE_CHANNEL cfg)
                                 (THROTTLE_FORWARD_PWM cfg)
                                 (THROTTLE_STOPPED_PWM cfg)
                                 (THROTTLE_REVERSE_PWM cfg)
      /\ e_inputs e7 = ["throttle"] /\ e_outputs e7 = [])
  /\ forall (i : nat) (e : entry),
       a_vehicle a !! i = Some e -> is_actuator (e_part e) = true ->
       (i = 6%nat \/ i = 7%nat)
       /\ e_outputs e = []
       /\ forall (k : string) (j : nat) (e' : entry),
            k ∈ e_inputs e -> a_vehicle a !! j = Some e' -> k ∈ e_outputs e' ->
            e_part e' = Lambda drive_mode_fn /\ (j < i)%nat.
Proof.
  intros H. apply drive_assemble_inv in H as (kl & loaded & _ & _ & _ & ->).
  split; [do 3 eexists; repeat split |].
  intros i e Hi Ha.
  each_position Hi; simpl in Ha; try discriminate Ha.
  - rewrite controller_not_actuator in Ha. discriminate Ha.
  - split; [auto |]. split; [reflexivity |].
    intros k j e' Hk Hj Hk'.
    each_position Hj; simpl in Hk, Hk';
      repeat (apply elem_of_cons in Hk as [-> | Hk]);
      try (apply elem_of_nil in Hk; destruct Hk);
      repeat (apply elem_of_cons in Hk' as [Hk' | Hk']);
      try (apply elem_of_nil in Hk'; destruct Hk');
      try discriminate Hk'.
    split; [reflexivity | lia].
  - split; [auto |]. split; [reflexivity |].
    intros k j e' Hk Hj Hk'.
    each_position Hj; simpl in Hk, Hk';
      repeat (apply elem_of_cons in Hk as [-> | Hk]);
      try (apply elem_of_nil in Hk; destruct Hk);
      repeat (apply elem_of_cons in Hk' as [Hk' | Hk']);
      try (apply elem_of_nil in Hk'; destruct Hk');
      try discriminate Hk'.
    split; [reflexivity | lia].
Qed.

Lemma actuators_follow_drive_mode_witness :
  exists e5 e6 e7 : entry,
    Demo.car !! 5%nat = Some e5
    /\ e_part e5 = Lambda drive_mode_fn
    /\ e_outputs e5 = ["angle"; "throttle"]
    /\ Demo.car !! 6%nat = Some e6
    /\ e_part e6 = PWMSteering (STEERING_CHANNEL Demo.cfg)
                               (STEERING_LEFT_PWM Demo.cfg)
                               (STEERING_RIGHT_PWM Demo.cfg)
    /\ e_inputs e6 = ["angle"] /\ e_outputs e6 = []
    /\ Demo.car !! 7%nat = Some e7
    /\ e_part e7 = PWMThrottle (THROTTLE_CHANNEL Demo.cfg)
                               (THROTTLE_FORWARD_PWM Demo.cfg)
                               (THROTTLE_STOPPED_PWM Demo.cfg)
                               (THROTTLE_REVERSE_PWM Demo.cfg)
    /\ e_inputs e7 = ["throttle"] /\ e_outputs e7 = [].
Proof.
  apply (proj1 (actuators_follow_drive_mode Demo.cfg VNone (VStr "linear")
                  (VBool false) (VBool false) _ eq_refl)).
Defined.
